(** * Storyblok component schemas to TypeScript type definitions

    A shallow embedding of [GenerateTypesFromJSONSchemas]
    (src/utils/typescript/generateTypesFromJSONSchema.ts) together with the
    property descriptors of src/types/generate-typescript-typedefs.ts.

    The class mutates its output buffer [typeDefsFileStrings] and its
    registry [hasTypeBeenGenerated], and it prints to the console; these are
    threaded explicitly through a small state-and-exception monad, together
    with the history of the calls of the external compiler.  Everything the class imports from other
    modules (lodash's [camelCase] and [startCase], the five shared schema
    builders, [compile] of json-schema-to-typescript) is collected in the
    record [Imports] and stays abstract in every general statement. *)

From Stdlib Require Import String Ascii List Bool Arith Lia.
From stdpp Require Import base option strings gmap list fin_maps.
Import ListNotations.

Local Open Scope string_scope.
Local Open Scope list_scope.

(** ** JavaScript values the code inspects *)

(** An optional boolean property ([restrict_components?: boolean], ...):
    [None] is [undefined]. *)
Definition truthy (b : option bool) : bool :=
  match b with
  | Some true => true
  | _ => false
  end.

(** Truthiness of an optional string property: [undefined] and the empty
    string are falsy. *)
Definition truthyStr (s : option string) : bool :=
  match s with
  | Some "" => false
  | Some _ => true
  | None => false
  end.

(** [x === "literal"] on an optional string property. *)
Definition isStr (s : option string) (lit : string) : bool :=
  match s with
  | Some v => String.eqb v lit
  | None => false
  end.

(** [Array.prototype.includes] on strings. *)
Definition includes (l : list string) (x : string) : bool :=
  existsb (String.eqb x) l.

(** [Array.isArray(x) && x.length > 0] for an optional array property. *)
Definition nonEmptyArray {A} (l : option (list A)) : option (list A) :=
  match l with
  | Some (x :: r) => Some (x :: r)
  | _ => None
  end.

(** [s.replace(/ /g, "")]. *)
Fixpoint removeSpaces (s : string) : string :=
  match s with
  | EmptyString => EmptyString
  | String c r => if Ascii.eqb c " " then removeSpaces r else String c (removeSpaces r)
  end.

(** A general JSON value: what a custom field parser may return for a key,
    and what the shared schema builders return. *)
#[local] Unset Elimination Schemes.
Inductive JSON : Type :=
  | JNull
  | JBool (b : bool)
  | JNum (n : Z)
  | JStr (s : string)
  | JArr (items : list JSON)
  | JObj (members : list (string * JSON)).
#[local] Set Elimination Schemes.

(** ** Property descriptors (types/generate-typescript-typedefs.ts) *)

Record ISbBlokPropertySchemaOption := {
  opt_uid : string;
  opt_name : string;
  opt_value : string;
}.

(** [ISbBlokPropertySchema], with the untyped members the generator also
    reads from the raw JSON ([required], [email_link_type],
    [asset_link_type]).  [pos], [key] and [use_uuid] are never read. *)
Record ISbBlokPropertySchema := {
  type_ : string;
  required : option bool;
  source : option string;
  options : option (list ISbBlokPropertySchemaOption);
  filter_content_type : option (list string);
  restrict_components : option bool;
  component_whitelist : option (list string);
  component_group_whitelist : option (list string);
  restrict_type : option string;
  exclude_empty_option : option bool;
  email_link_type : option bool;
  asset_link_type : option bool;
}.

(** A descriptor that only carries a [type]. *)
Definition plainField (ty : string) : ISbBlokPropertySchema :=
  {| type_ := ty; required := None; source := None; options := None;
     filter_content_type := None; restrict_components := None;
     component_whitelist := None; component_group_whitelist := None;
     restrict_type := None; exclude_empty_option := None;
     email_link_type := None; asset_link_type := None |}.

(** [string | string[]] *)
Inductive TypeName : Type :=
  | One (t : string)
  | Many (ts : list string).

Record ItemsAnnotation := {
  items_type : option TypeName;
  items_enum : option (list string);
}.

(** [BlokSchemaPropertyTypeAnnotation]: the union of object shapes, as one
    record of optional members (a member that is [None] is absent). *)
Record BlokSchemaPropertyTypeAnnotation := {
  a_type : option TypeName;
  a_enum : option (list string);
  a_items : option ItemsAnnotation;
  a_tsType : option string;
}.

Definition annType (t : TypeName) : BlokSchemaPropertyTypeAnnotation :=
  {| a_type := Some t; a_enum := None; a_items := None; a_tsType := None |}.

Definition annTsType (ts : string) : BlokSchemaPropertyTypeAnnotation :=
  {| a_type := None; a_enum := None; a_items := None; a_tsType := Some ts |}.

(** [obj[schemaKey].tsType = ts] *)
Definition setTsType (ts : string) (a : BlokSchemaPropertyTypeAnnotation)
  : BlokSchemaPropertyTypeAnnotation :=
  {| a_type := a_type a; a_enum := a_enum a; a_items := a_items a; a_tsType := Some ts |}.

(** A value of the [properties] object of a component: either an annotation
    built by the generator or whatever a custom parser returned. *)
Inductive PropertySchema : Type :=
  | Annotated (a : BlokSchemaPropertyTypeAnnotation)
  | Foreign (v : JSON).

(** A component schema of the input.  [schema] is [Object.entries] of the
    component's [schema] object. *)
Record ComponentJSONSchema := {
  name : string;
  component_group_uuid : option string;
  schema : list (string * ISbBlokPropertySchema);
}.

(** The object assembled for one component in [generateTSFile]. *)
Record ComponentObject := {
  obj_id : string;
  obj_title : string;
  obj_type : string;
  obj_required : list string;
  obj_properties : gmap string PropertySchema;
}.

(** First argument of [compile]: a component object or one of the shared
    schemas. *)
Inductive CompileInput : Type :=
  | ComponentInput (obj : ComponentObject)
  | SharedInput (schema : JSON).

(** Outcome of a call that may throw. *)
Inductive Result (A : Type) : Type :=
  | Ok (a : A)
  | Throw (e : string).
Arguments Ok {A} a.
Arguments Throw {A} e.

(** ** What the class imports *)

(** [compile] is given the number of calls made before it in the run on top
    of its arguments, so that no determinism of the external compiler is
    assumed.  [writeFileSync] is [fs.writeFileSync]: given a path and a text
    it returns, or throws when the file cannot be written. *)
Record Imports := {
  camelCase : string -> string;
  startCase : string -> string;
  getAssetJSONSchema : string -> JSON;
  getMultiassetJSONSchema : string -> JSON;
  getMultilinkJSONSchema : string -> JSON;
  getRichtextJSONSchema : string -> JSON;
  getTableJSONSchema : string -> JSON;
  compile : nat -> CompileInput -> string -> Result string;
  writeFileSync : string -> string -> Result unit;
}.

(** [GenerateTSTypedefsFromComponentsJSONSchemasOptions], the members the
    class reads. *)
Record Options := {
  typeNamesPrefix : option string;
  typeNamesSuffix : option string;
  destinationFilePath : string;
}.

(** A custom parser returns an object or throws.  The map holds the
    properties [Object.assign] defines on its target for that object: its
    own enumerable properties, but for a key [__proto__], which
    [Object.assign] passes to the prototype setter of the target. *)
Definition CustomTypeParser : Type :=
  string -> ISbBlokPropertySchema -> Result (gmap string PropertySchema).

(** ** Sets and the group index *)

(** A JavaScript [Set] of strings: insertion ordered, no duplicates. *)
Definition setAdd (s : list string) (x : string) : list string :=
  if includes s x then s else s ++ [x].

Record ComponentGroupsAndNamesObject := {
  componentGroups : gmap string (list string);
  componentNames : list string;
}.

Definition groupsStep (acc : ComponentGroupsAndNamesObject) (currentComponent : ComponentJSONSchema)
  : ComponentGroupsAndNamesObject :=
  let uuid := default "" (component_group_uuid currentComponent) in
  {| componentGroups :=
       if truthyStr (component_group_uuid currentComponent) then
         <[uuid :=
             match componentGroups acc !! uuid with
             | Some members => setAdd members (name currentComponent)
             | None => [name currentComponent]
             end]> (componentGroups acc)
       else componentGroups acc;
     componentNames := setAdd (componentNames acc) (name currentComponent) |}.

Definition generateComponentGroupsAndComponentNamesFromJSONSchemas
  (componentsJSONSchemas : list ComponentJSONSchema) : ComponentGroupsAndNamesObject :=
  fold_left groupsStep componentsJSONSchemas {| componentGroups := ∅; componentNames := [] |}.

(** The read-only private fields of an instance. *)
Record Instance := {
  opts : Options;
  componentsJSONSchemas : list ComponentJSONSchema;
  customTypeParser : option CustomTypeParser;
  groups : gmap string (list string);
  names : list string;
}.

(** The constructor. *)
Definition new (schemas : list ComponentJSONSchema) (o : Options)
  (parser : option CustomTypeParser) : Instance :=
  let idx := generateComponentGroupsAndComponentNamesFromJSONSchemas schemas in
  {| opts := o; componentsJSONSchemas := schemas; customTypeParser := parser;
     groups := componentGroups idx; names := componentNames idx |}.

(** ** Mutable state and effects *)

(** Where an entry of the output buffer came from.  The buffer of the class
    holds the texts only; the label is bookkeeping used to count what was
    pushed for whom. *)
Inductive Origin : Type :=
  | ImportLine
  | SharedDefinition (kind : string)
  | ComponentDefinition (component : string).

Record Emitted := {
  origin : Origin;
  text : string;
}.

Inductive ConsoleEntry : Type :=
  | ConsoleLog (args : list string)
  | ConsoleError (args : list string).

(** One call of [compile], with its outcome. *)
Record CompileCall := {
  call_input : CompileInput;
  call_name : string;
  call_result : Result string;
}.

(** [typeDefsFileStrings] and [hasTypeBeenGenerated] are the private fields
    of the class, [console] collects what is printed, [compileCalls] is the
    history of the calls of the external compiler. *)
Record State := {
  typeDefsFileStrings : list Emitted;
  hasTypeBeenGenerated : gmap string bool;
  console : list ConsoleEntry;
  compileCalls : list CompileCall;
}.

(** A computation that reads and writes the state and may throw; what was
    written before a throw stays written. *)
Definition M (A : Type) : Type := State -> Result A * State.

Definition ret {A} (a : A) : M A := fun st => (Ok a, st).

Definition bind {A B} (m : M A) (k : A -> M B) : M B :=
  fun st =>
    match m st with
    | (Ok a, st') => k a st'
    | (Throw e, st') => (Throw e, st')
    end.

(** [try { body } catch (e) { handler(e) }] *)
Definition tryCatch {A} (body : M A) (handler : string -> M A) : M A :=
  fun st =>
    match body st with
    | (Ok a, st') => (Ok a, st')
    | (Throw e, st') => handler e st'
    end.

Definition liftResult {A} (r : Result A) : M A := fun st => (r, st).

Declare Scope gen_scope.
Delimit Scope gen_scope with gen.
Notation "x <- m ;; k" := (bind m (fun x => k))
  (at level 20, m at level 99, k at level 200, only parsing) : gen_scope.
Notation "m ;; k" := (bind m (fun _ => k))
  (at level 100, k at level 200, right associativity, only parsing) : gen_scope.

(** [this.#typeDefsFileStrings.push(ts)] *)
Definition pushTypeDef (e : Emitted) : M unit :=
  fun st =>
    (Ok tt,
     {| typeDefsFileStrings := typeDefsFileStrings st ++ [e];
        hasTypeBeenGenerated := hasTypeBeenGenerated st;
        console := console st;
        compileCalls := compileCalls st |}).

(** [this.#hasTypeBeenGenerated.set(typeName, true)] *)
Definition markGenerated (typeName : string) : M unit :=
  fun st =>
    (Ok tt,
     {| typeDefsFileStrings := typeDefsFileStrings st;
        hasTypeBeenGenerated := <[typeName := true]> (hasTypeBeenGenerated st);
        console := console st;
        compileCalls := compileCalls st |}).

Definition print (entry : ConsoleEntry) : M unit :=
  fun st =>
    (Ok tt,
     {| typeDefsFileStrings := typeDefsFileStrings st;
        hasTypeBeenGenerated := hasTypeBeenGenerated st;
        console := console st ++ [entry];
        compileCalls := compileCalls st |}).

(** The double quote character, as a string. *)
Definition dq : string := String (Ascii.ascii_of_nat 34) EmptyString.

(** Truthiness of a JSON value. *)
Definition jsTruthy (v : JSON) : bool :=
  match v with
  | JNull => false
  | JBool b => b
  | JNum n => negb (Z.eqb n 0)
  | JStr s => negb (String.eqb s "")
  | JArr _ => true
  | JObj _ => true
  end.

Definition initialRegistry : gmap string bool :=
  <["table" := false]> (<["richtext" := false]> (<["multilink" := false]>
    (<["multiasset" := false]> (<["asset" := false]> ∅)))).

(** The field initialisers of the class. *)
Definition initialState : State :=
  {| typeDefsFileStrings :=
       [ {| origin := ImportLine;
            text := "import type { ISbStoryData } from " +:+ dq +:+ "storyblok" +:+ dq +:+ ";" |} ];
     hasTypeBeenGenerated := initialRegistry;
     console := [];
     compileCalls := [] |}.

(** [!!this.#hasTypeBeenGenerated.get(kind)] *)
Definition generated (st : State) (kind : string) : bool :=
  truthy (hasTypeBeenGenerated st !! kind).

(** ** The generator *)

Section Generator.

Variable imp : Imports.

(** *** Type names *)

(** The template literal
    [`${typeNamesPrefix ?? ""}${blokName}${typeNamesSuffix}`]: an absent
    prefix is replaced by the empty string; an absent suffix is interpolated
    as it is, and a template literal prints [undefined] as the text
    "undefined". *)
Definition templateName (o : Options) (blokName : string) : string :=
  default "" (typeNamesPrefix o) +:+ blokName +:+ default "undefined" (typeNamesSuffix o).

Definition getBlokTypeName (self : Instance) (blokName : string) : string :=
  removeSpaces (startCase imp (camelCase imp (templateName (opts self) blokName))).

Definition STORY_DATATYPE_NAME : string := "ISbStoryData".

Definition getStoryType (self : Instance) (storyBlokName : string) : string :=
  STORY_DATATYPE_NAME +:+ "<" +:+ getBlokTypeName self storyBlokName +:+ ">".

(** *** Shared kinds *)

(** The [Map] [#getAutogeneratedTypeSchema], in insertion order. *)
Definition getAutogeneratedTypeSchema : list (string * (string -> JSON)) :=
  [ ("asset", getAssetJSONSchema imp);
    ("multiasset", getMultiassetJSONSchema imp);
    ("multilink", getMultilinkJSONSchema imp);
    ("richtext", getRichtextJSONSchema imp);
    ("table", getTableJSONSchema imp) ].

(** [Map.prototype.get] *)
Fixpoint mapGet {A} (m : list (string * A)) (k : string) : option A :=
  match m with
  | [] => None
  | (k', v) :: r => if String.eqb k' k then Some v else mapGet r k
  end.

Definition autogeneratedPropertyTypes : list string :=
  map fst getAutogeneratedTypeSchema.

(** *** [#parseBlokSchemaProperty] *)

Definition optionValues (schemaProperty : ISbBlokPropertySchema) : list string :=
  let options0 :=
    match nonEmptyArray (options schemaProperty) with
    | Some l => map opt_value l
    | None => []
    end in
  match options0 with
  | [] => []
  | _ :: _ =>
      if negb (truthy (exclude_empty_option schemaProperty)) then "" :: options0 else options0
  end.

Definition isNil {A} (l : list A) : bool :=
  match l with [] => true | _ => false end.

Definition fallbackType (schemaProperty : ISbBlokPropertySchema) (opts_ : list string) : TypeName :=
  let t0 :=
    if (negb (isNil opts_) && negb (truthyStr (source schemaProperty)))
       || isStr (source schemaProperty) "internal_languages"
       || isStr (source schemaProperty) "external"
    then One "string" else One "any" in
  if isStr (source schemaProperty) "internal" then Many ["number"; "string"] else t0.

Definition parseBlokSchemaProperty (self : Instance) (schemaProperty : ISbBlokPropertySchema)
  : BlokSchemaPropertyTypeAnnotation :=
  if includes autogeneratedPropertyTypes (type_ schemaProperty) then
    annType (One (type_ schemaProperty))
  else
    let opts_ := optionValues schemaProperty in
    match (if isStr (source schemaProperty) "internal_stories"
           then filter_content_type schemaProperty else None) with
    | Some contentTypes =>
        annTsType ("(" +:+ String.concat " | " (map (getStoryType self) contentTypes)
                   +:+ " | string )"
                   +:+ (if String.eqb (type_ schemaProperty) "options" then "[]" else ""))
    | None =>
        let type := fallbackType schemaProperty opts_ in
        if String.eqb (type_ schemaProperty) "option" then
          if negb (isNil opts_) then
            {| a_type := Some type; a_enum := Some opts_; a_items := None; a_tsType := None |}
          else annType type
        else if String.eqb (type_ schemaProperty) "options" then
          if negb (isNil opts_) then
            {| a_type := Some (One "array"); a_enum := None;
               a_items := Some {| items_type := None; items_enum := Some opts_ |};
               a_tsType := None |}
          else
            {| a_type := Some (One "array"); a_enum := None;
               a_items := Some {| items_type := Some type; items_enum := None |};
               a_tsType := None |}
        else if String.eqb (type_ schemaProperty) "bloks" then annType (One "array")
        else if String.eqb (type_ schemaProperty) "boolean" then annType (One "boolean")
        else if includes ["datetime"; "image"; "markdown"; "number"; "text"; "textarea"]
                  (type_ schemaProperty)
        then annType (One "string")
        else annType (One "any")
    end.

(** *** Shared definitions *)

(** [await compile(input, name, this.#options.JSONSchemaToTSCustomOptions)] *)
Definition callCompile (input : CompileInput) (name_ : string) : M string :=
  fun st =>
    let r := compile imp (length (compileCalls st)) input name_ in
    (r,
     {| typeDefsFileStrings := typeDefsFileStrings st;
        hasTypeBeenGenerated := hasTypeBeenGenerated st;
        console := console st;
        compileCalls :=
          compileCalls st ++ [ {| call_input := input; call_name := name_; call_result := r |} ] |}).

Definition generateTypeString (schema_ : JSON) (typeName : string) : M string :=
  (typeString <- callCompile (SharedInput schema_) typeName ;;
   markGenerated typeName ;;
   ret typeString)%gen.

Definition generateAutogeneratedType (typeName title : string) : M (option string) :=
  tryCatch
    (match mapGet getAutogeneratedTypeSchema typeName with
     | Some builder =>
         let schema_ := builder title in
         if jsTruthy schema_ then
           (typeString <- generateTypeString schema_ typeName ;; ret (Some typeString))%gen
         else ret None
     | None => ret None
     end)
    (fun e =>
       (print (ConsoleError ["Error generating type " +:+ typeName +:+ " with title " +:+ title; e]) ;;
        ret None)%gen).

(** The result is [None] for [false] and [undefined]. *)
Definition generateType (typeName title : string) : M (option string) :=
  fun st =>
    if negb (truthy (hasTypeBeenGenerated st !! typeName))
    then generateAutogeneratedType typeName title st
    else (Ok None, st).

(** *** [#typeMapper] *)

(** The two object types that may be excluded from the multilink type. *)
Definition emailLinkShape : string := "{ linktype?: " +:+ dq +:+ "email" +:+ dq +:+ " }".
Definition assetLinkShape : string := "{ linktype?: " +:+ dq +:+ "asset" +:+ dq +:+ " }".

Definition multilinkTsType (self : Instance) (schemaElement : ISbBlokPropertySchema) : string :=
  let baseType := getBlokTypeName self "multilink" in
  let excludedLinktypes :=
    (if negb (truthy (email_link_type schemaElement)) then [emailLinkShape] else [])
    ++ (if negb (truthy (asset_link_type schemaElement)) then [assetLinkShape] else []) in
  if negb (isNil excludedLinktypes)
  then "Exclude<" +:+ baseType +:+ ", " +:+ String.concat " | " excludedLinktypes +:+ ">"
  else baseType.

Definition currentGroupElements (self : Instance) (whitelist : list string) : list string :=
  fold_left
    (fun bloks groupUUID =>
       match groups self !! groupUUID with
       | Some bloksInGroup => bloks ++ map (getBlokTypeName self) bloksInGroup
       | None => bloks
       end)
    whitelist [].

(** The [tsType] the "bloks" branch assigns, [None] where it assigns
    nothing. *)
Definition bloksTsType (self : Instance) (schemaElement : ISbBlokPropertySchema) : option string :=
  if truthy (restrict_components schemaElement) then
    if isStr (restrict_type schemaElement) "groups" then
      match nonEmptyArray (component_group_whitelist schemaElement) with
      | Some whitelist =>
          let elements := currentGroupElements self whitelist in
          Some (if negb (isNil elements)
                then "(" +:+ String.concat " | " elements +:+ ")[]"
                else "never[]")
      | None => None
      end
    else
      match nonEmptyArray (component_whitelist schemaElement) with
      | Some whitelist =>
          Some ("(" +:+ String.concat " | " (map (getBlokTypeName self) whitelist) +:+ ")[]")
      | None => None
      end
  else
    Some ("(" +:+ String.concat " | " (map (getBlokTypeName self) (names self)) +:+ ")[]").

(** [obj[schemaKey] = element] on the fresh object [obj], followed at the end
    of the iteration by [Object.assign(parseObj, obj)].  For the key
    [__proto__] the assignment sets the prototype of [obj] and gives it no
    property of its own, so that [Object.assign] copies nothing: the field
    is dropped.  Every other key becomes a property of [parseObj]. *)
Definition assignOwn (parseObj : gmap string PropertySchema) (schemaKey : string)
  (element : PropertySchema) : gmap string PropertySchema :=
  if String.eqb schemaKey "__proto__" then parseObj else <[schemaKey := element]> parseObj.

(** One iteration of the loop of [#typeMapper]. *)
Definition typeMapperEntry (self : Instance) (parseObj : gmap string PropertySchema)
  (entry : string * ISbBlokPropertySchema) : M (gmap string PropertySchema) :=
  let '(schemaKey, schemaElement) := entry in
  if String.prefix "tab-" schemaKey then ret parseObj
  else
    let type := type_ schemaElement in
    let element := parseBlokSchemaProperty self schemaElement in
    if String.eqb type "custom" then
      match customTypeParser self with
      | Some parser =>
          (fragment <- liftResult (parser schemaKey schemaElement) ;;
           ret (fragment ∪ parseObj))%gen
      | None => ret (∅ ∪ parseObj)
      end
    else
      (element1 <-
         (if includes autogeneratedPropertyTypes type then
            let blokName := getBlokTypeName self type in
            (ts <- generateType type blokName ;;
             match ts with
             | Some ts' =>
                 if truthyStr (Some ts')
                 then pushTypeDef {| origin := SharedDefinition type; text := ts' |}
                 else ret tt
             | None => ret tt
             end ;;
             ret (setTsType blokName element))%gen
          else ret element) ;;
       let element2 :=
         if String.eqb type "multilink"
         then setTsType (multilinkTsType self schemaElement) element1 else element1 in
       let element3 :=
         if String.eqb type "bloks" then
           match bloksTsType self schemaElement with
           | Some ts => setTsType ts element2
           | None => element2
           end
         else element2 in
       ret (assignOwn parseObj schemaKey (Annotated element3)))%gen.

Fixpoint typeMapperLoop (self : Instance) (entries : list (string * ISbBlokPropertySchema))
  (parseObj : gmap string PropertySchema) : M (gmap string PropertySchema) :=
  match entries with
  | [] => ret parseObj
  | entry :: rest =>
      (parseObj' <- typeMapperEntry self parseObj entry ;;
       typeMapperLoop self rest parseObj')%gen
  end.

Definition typeMapper (self : Instance) (componentSchema : list (string * ISbBlokPropertySchema))
  : M (gmap string PropertySchema) :=
  typeMapperLoop self componentSchema ∅.

(** *** [generateTSFile] *)

Definition requiredFields (component : ComponentJSONSchema) : list string :=
  fold_left
    (fun acc (kv : string * ISbBlokPropertySchema) =>
       if truthy (required (snd kv)) then acc ++ [fst kv] else acc)
    (schema component) ["component"; "_uid"].

Definition uidProperty : PropertySchema := Annotated (annType (One "string")).

Definition componentProperty (componentName : string) : PropertySchema :=
  Annotated {| a_type := Some (One "string"); a_enum := Some [componentName];
               a_items := None; a_tsType := None |}.

(** The object handed to [compile] for a component, given what
    [#typeMapper] returned. *)
Definition componentObject (self : Instance) (component : ComponentJSONSchema)
  (properties : gmap string PropertySchema) : ComponentObject :=
  {| obj_id := "#/" +:+ name component;
     obj_title := getBlokTypeName self (name component);
     obj_type := "object";
     obj_required := requiredFields component;
     obj_properties :=
       <["component" := componentProperty (name component)]>
         (<["_uid" := uidProperty]> properties) |}.

(** The body of the loop of [generateTSFile]. *)
Definition generateComponent (self : Instance) (component : ComponentJSONSchema) : M unit :=
  (properties <- typeMapper self (schema component) ;;
   let obj := componentObject self component properties in
   tryCatch
     (ts <- callCompile (ComponentInput obj) (name component) ;;
      pushTypeDef {| origin := ComponentDefinition (name component); text := ts |})
     (fun e => print (ConsoleLog ["ERROR"; e])))%gen.

Fixpoint generateComponents (self : Instance) (components : list ComponentJSONSchema) : M unit :=
  match components with
  | [] => ret tt
  | component :: rest =>
      (generateComponent self component ;; generateComponents self rest)%gen
  end.

(** The text [#writeTypeDefs] hands to [fs.writeFileSync], if it writes at
    all: the buffer joined with line feeds, when [destinationFilePath] is
    not empty. *)
Definition textToWrite (self : Instance) (st : State) : option string :=
  if negb (String.eqb (destinationFilePath (opts self)) "")
  then Some (String.concat (String (Ascii.ascii_of_nat 10) EmptyString)
               (map text (typeDefsFileStrings st)))
  else None.

(** [#writeTypeDefs].  The method returns [this]; the model returns the text
    it wrote, [None] when it wrote nothing.  An error of [fs.writeFileSync]
    is not caught. *)
Definition writeTypeDefs (self : Instance) : M (option string) :=
  fun st =>
    match textToWrite self st with
    | Some contents =>
        match writeFileSync imp (destinationFilePath (opts self)) contents with
        | Ok _ => (Ok (Some contents), st)
        | Throw e => (Throw e, st)
        end
    | None => (Ok None, st)
    end.

Definition generateTSFile (self : Instance) : M (option string) :=
  (generateComponents self (componentsJSONSchemas self) ;; writeTypeDefs self)%gen.

(** A whole run: [init] followed by [generateTSFile]. *)
Definition run (schemas : list ComponentJSONSchema) (o : Options)
  (parser : option CustomTypeParser) : Result (option string) * State :=
  generateTSFile (new schemas o parser) initialState.

(** *** Notions used to state the properties *)

(** What [#generateType] can do. *)
Inductive GenerateTypeOutcome (typeName title : string) (st : State)
  : Result (option string) * State -> Prop :=
  | Skipped :
      GenerateTypeOutcome typeName title st (Ok None, st)
  | Rendered schema_ ts :
      generated st typeName = false ->
      compile imp (length (compileCalls st)) (SharedInput schema_) typeName = Ok ts ->
      GenerateTypeOutcome typeName title st
        (Ok (Some ts),
         {| typeDefsFileStrings := typeDefsFileStrings st;
            hasTypeBeenGenerated := <[typeName := true]> (hasTypeBeenGenerated st);
            console := console st;
            compileCalls :=
              compileCalls st ++
              [ {| call_input := SharedInput schema_; call_name := typeName;
                   call_result := Ok ts |} ] |})
  | Failed schema_ e :
      generated st typeName = false ->
      compile imp (length (compileCalls st)) (SharedInput schema_) typeName = Throw e ->
      GenerateTypeOutcome typeName title st
        (Ok None,
         {| typeDefsFileStrings := typeDefsFileStrings st;
            hasTypeBeenGenerated := hasTypeBeenGenerated st;
            console :=
              console st ++
              [ConsoleError ["Error generating type " +:+ typeName +:+ " with title " +:+ title; e]];
            compileCalls :=
              compileCalls st ++
              [ {| call_input := SharedInput schema_; call_name := typeName;
                   call_result := Throw e |} ] |}).

(** What a field of a shared kind does to the state: render the shared
    definition if the registry asks for it, push what was rendered. *)
Definition sharedStep (typeName title : string) : M unit :=
  bind (generateType typeName title)
    (fun ts =>
       match ts with
       | Some ts' =>
           if truthyStr (Some ts')
           then pushTypeDef {| origin := SharedDefinition typeName; text := ts' |}
           else ret tt
       | None => ret tt
       end).

(** The annotation of the "internal_stories" rule. *)
Definition storiesAnnotation (self : Instance) (d : ISbBlokPropertySchema)
  (contentTypes : list string) : BlokSchemaPropertyTypeAnnotation :=
  annTsType ("(" +:+ String.concat " | " (map (getStoryType self) contentTypes)
             +:+ " | string )"
             +:+ (if String.eqb (type_ d) "options" then "[]" else "")).

End Generator.

(** The restriction list a restricted "bloks" field is read from. *)
Definition restrictionList (d : ISbBlokPropertySchema) : option (list string) :=
  if isStr (restrict_type d) "groups" then component_group_whitelist d else component_whitelist d.

(** ** Counting what a run produced *)

Definition isSharedDefinition (kind : string) (e : Emitted) : bool :=
  match origin e with
  | SharedDefinition k => String.eqb k kind
  | _ => false
  end.

(** How many definitions of the shared kind [kind] are in the output
    buffer. *)
Definition emittedFor (kind : string) (st : State) : nat :=
  length (List.filter (isSharedDefinition kind) (typeDefsFileStrings st)).

Definition isRender (kind : string) (c : CompileCall) : bool :=
  match call_input c, call_result c with
  | SharedInput _, Ok _ => String.eqb (call_name c) kind
  | _, _ => false
  end.

(** How many times the shared kind [kind] was compiled with success.
    [#generateTypeString] sets the registry entry right after each of
    these, and nothing else writes the registry. *)
Definition rendersOf (kind : string) (st : State) : nat :=
  length (List.filter (isRender kind) (compileCalls st)).

(** The invariant behind the at-most-once emission. *)
Definition registryInv (st : State) : Prop :=
  forall kind,
    (emittedFor kind st <= rendersOf kind st)%nat /\
    (rendersOf kind st <= 1)%nat /\
    (generated st kind = false -> rendersOf kind st = 0%nat).

(** ** Concrete imports for worked examples *)

(** Modelled from the spec: lodash and the module
    [./autogeneratedStoryblokTypes] are not part of the sources at hand.  The
    general statements below hold for every [Imports]; the closed examples
    need one to compute with.  The file system of the examples accepts every
    write.  [Sample.camelCaseAscii] and [Sample.startCaseAscii]
    follow section 4.5 of the specification (split on non-alphanumeric
    boundaries, capitalise each segment) on ASCII input, and also split
    between a lower-case and an upper-case letter and between letters and
    digits, as lodash does; the shared schema builders return a stub object
    that records the title. *)
Module Sample.

Definition inRange (lo hi : nat) (c : ascii) : bool :=
  (lo <=? nat_of_ascii c)%nat && (nat_of_ascii c <=? hi)%nat.

Definition isLower := inRange 97 122.
Definition isUpper := inRange 65 90.
Definition isDigit := inRange 48 57.
Definition isLetter (c : ascii) : bool := isLower c || isUpper c.

Definition toUpper (c : ascii) : ascii :=
  if isLower c then ascii_of_nat (nat_of_ascii c - 32) else c.

Definition toLower (c : ascii) : ascii :=
  if isUpper c then ascii_of_nat (nat_of_ascii c + 32) else c.

Fixpoint lowerCase (s : string) : string :=
  match s with
  | EmptyString => EmptyString
  | String c r => String (toLower c) (lowerCase r)
  end.

Definition upperFirst (s : string) : string :=
  match s with
  | EmptyString => EmptyString
  | String c r => String (toUpper c) r
  end.

Definition flush (cur : string) : list string :=
  match cur with
  | EmptyString => []
  | _ => [cur]
  end.

Definition boundary (prev : option ascii) (c : ascii) : bool :=
  match prev with
  | Some p =>
      (isLower p && isUpper c) || (isDigit p && isLetter c) || (isLetter p && isDigit c)
  | None => false
  end.

Fixpoint wordsFrom (prev : option ascii) (cur : string) (s : string) : list string :=
  match s with
  | EmptyString => flush cur
  | String c r =>
      if isLetter c || isDigit c then
        if boundary prev c
        then flush cur ++ wordsFrom (Some c) (String c EmptyString) r
        else wordsFrom (Some c) (cur +:+ String c EmptyString) r
      else flush cur ++ wordsFrom None EmptyString r
  end.

Definition words (s : string) : list string := wordsFrom None EmptyString s.

Definition camelCaseAscii (s : string) : string :=
  match words s with
  | [] => ""
  | w :: ws => lowerCase w +:+ String.concat "" (map (fun x => upperFirst (lowerCase x)) ws)
  end.

Definition startCaseAscii (s : string) : string :=
  String.concat " " (map upperFirst (words s)).

Definition stub (kind title : string) : JSON :=
  JObj [("$id", JStr ("#/" +:+ kind)); ("title", JStr title); ("type", JStr "object")].

Definition imports (compile_ : nat -> CompileInput -> string -> Result string) : Imports :=
  {| camelCase := camelCaseAscii;
     startCase := startCaseAscii;
     getAssetJSONSchema := stub "asset";
     getMultiassetJSONSchema := stub "multiasset";
     getMultilinkJSONSchema := stub "multilink";
     getRichtextJSONSchema := stub "richtext";
     getTableJSONSchema := stub "table";
     compile := compile_;
     writeFileSync := fun _ _ => Ok tt |}.

(** A compiler that accepts everything and answers with a line naming what
    it was asked to compile. *)
Definition accept (n : nat) (input : CompileInput) (name_ : string) : Result string :=
  Ok ("export interface " +:+ name_ +:+ " {}").

Definition storyblok : Options :=
  {| typeNamesPrefix := None; typeNamesSuffix := Some "Storyblok";
     destinationFilePath := "types.d.ts" |}.

Definition bare : Options :=
  {| typeNamesPrefix := None; typeNamesSuffix := Some "";
     destinationFilePath := "types.d.ts" |}.

End Sample.

(** ** Inputs of the worked examples *)

(** Two components that both carry an "asset" field; "teaser" has a required
    headline, "grid" nests other components. *)
Definition headline : ISbBlokPropertySchema :=
  {| type_ := "text"; required := Some true; source := None; options := None;
     filter_content_type := None; restrict_components := None;
     component_whitelist := None; component_group_whitelist := None;
     restrict_type := None; exclude_empty_option := None;
     email_link_type := None; asset_link_type := None |}.

Definition teaser : ComponentJSONSchema :=
  {| name := "teaser"; component_group_uuid := None;
     schema := [("headline", headline); ("image", plainField "asset")] |}.

Definition grid : ComponentJSONSchema :=
  {| name := "grid"; component_group_uuid := Some "layout";
     schema := [("items", plainField "bloks"); ("cover", plainField "asset")] |}.

Definition sampleImports : Imports := Sample.imports Sample.accept.

Definition sampleSelf : Instance := new [teaser; grid] Sample.bare None.

(** A compiler that rejects the component named [bad]. *)
Definition rejectComponent (bad msg : string) (n : nat) (input : CompileInput) (name_ : string)
  : Result string :=
  match input with
  | ComponentInput _ => if String.eqb name_ bad then Throw msg else Sample.accept n input name_
  | SharedInput _ => Sample.accept n input name_
  end.

(** A compiler whose first call fails. *)
Definition failFirst (n : nat) (input : CompileInput) (name_ : string) : Result string :=
  if Nat.eqb n 0 then Throw "out of memory" else Sample.accept n input name_.

(** Whether a printed entry contains the text [needle] in one of its
    arguments. *)
Definition mentions (needle : string) (entry : ConsoleEntry) : bool :=
  let args := match entry with ConsoleLog a => a | ConsoleError a => a end in
  existsb (fun a => match String.index 0 needle a with Some _ => true | None => false end) args.

(** The annotation a step stored under [key], if the step returned one. *)
Definition resolvedAnnotation (r : Result (gmap string PropertySchema) * State) (key : string)
  : option BlokSchemaPropertyTypeAnnotation :=
  match fst r with
  | Ok properties =>
      match properties !! key with
      | Some (Annotated a) => Some a
      | _ => None
      end
  | Throw _ => None
  end.

(** A "bloks" field restricted by groups that carries no group list. *)
Definition restrictedWithoutList : ISbBlokPropertySchema :=
  {| type_ := "bloks"; required := None; source := None; options := None;
     filter_content_type := None; restrict_components := Some true;
     component_whitelist := None; component_group_whitelist := None;
     restrict_type := Some "groups"; exclude_empty_option := None;
     email_link_type := None; asset_link_type := None |}.

(** A "bloks" field restricted to a group nobody belongs to. *)
Definition restrictedToEmptyGroup : ISbBlokPropertySchema :=
  {| type_ := "bloks"; required := None; source := None; options := None;
     filter_content_type := None; restrict_components := Some true;
     component_whitelist := None; component_group_whitelist := Some ["nobody"];
     restrict_type := Some "groups"; exclude_empty_option := None;
     email_link_type := None; asset_link_type := None |}.

(** A single-option field fed by stories, with the content types given. *)
Definition storyOption (kind : string) (contentTypes : list string) : ISbBlokPropertySchema :=
  {| type_ := kind; required := None; source := Some "internal_stories"; options := None;
     filter_content_type := Some contentTypes; restrict_components := None;
     component_whitelist := None; component_group_whitelist := None;
     restrict_type := None; exclude_empty_option := None;
     email_link_type := None; asset_link_type := None |}.


Definition customField : ISbBlokPropertySchema :=
  {| type_ := "custom"; required := Some true; source := None; options := None;
     filter_content_type := None; restrict_components := None;
     component_whitelist := None; component_group_whitelist := None;
     restrict_type := None; exclude_empty_option := None;
     email_link_type := None; asset_link_type := None |}.

Definition noSuffix : Options :=
  {| typeNamesPrefix := None; typeNamesSuffix := None; destinationFilePath := "types.d.ts" |}.

(** A custom parser that answers every field with one property. *)
Definition colorParser : CustomTypeParser :=
  fun _ _ => Ok {[ "color" := Foreign (JObj [("type", JStr "string")]) ]}.

Definition banner : ComponentJSONSchema :=
  {| name := "banner"; component_group_uuid := None;
     schema := [("accent", customField); ("_uid", plainField "boolean");
                ("component", plainField "bloks")] |}.

(** ** Loading the custom parser *)

(** [#loadCustomFieldTypeParser].  [importModule] stands for the dynamic
    [import(path)]: it throws when the module cannot be loaded, and yields
    the default export otherwise, [None] when that export is not a function
    (which is how [#typeMapper] treats it). *)
Definition loadCustomFieldTypeParser
  (importModule : string -> Result (option CustomTypeParser)) (path : option string)
  : option CustomTypeParser :=
  if truthyStr path then
    match importModule (default "" path) with
    | Ok customTypeParser_ => customTypeParser_
    | Throw _ => None
    end
  else None.

(** [init] *)
Definition init (importModule : string -> Result (option CustomTypeParser))
  (customFieldTypesParserPath : option string)
  (schemas : list ComponentJSONSchema) (o : Options) : Instance :=
  new schemas o (loadCustomFieldTypeParser importModule customFieldTypesParserPath).

(** ** Further notions used to state properties *)

Section Resolution.

Variable imp : Imports.

(** The annotation [#typeMapper] stores for a field that is neither skipped
    nor custom: what [#parseBlokSchemaProperty] returns, with the [tsType]
    assigned for the shared kinds, for "multilink" and for "bloks". *)
Definition fieldAnnotation (self : Instance) (d : ISbBlokPropertySchema)
  : BlokSchemaPropertyTypeAnnotation :=
  let element := parseBlokSchemaProperty imp self d in
  let element1 :=
    if includes (autogeneratedPropertyTypes imp) (type_ d)
    then setTsType (getBlokTypeName imp self (type_ d)) element else element in
  let element2 :=
    if String.eqb (type_ d) "multilink"
    then setTsType (multilinkTsType imp self d) element1 else element1 in
  if String.eqb (type_ d) "bloks" then
    match bloksTsType imp self d with
    | Some ts => setTsType ts element2
    | None => element2
    end
  else element2.

End Resolution.

(** A field [#typeMapper] stores nothing for: a tab marker or a custom
    field. *)
Definition skipped (schemaKey : string) (d : ISbBlokPropertySchema) : bool :=
  String.prefix "tab-" schemaKey || String.eqb (type_ d) "custom".

(** A field [#typeMapper] stores an annotation for: neither skipped nor
    dropped by the assignment under the key [__proto__]. *)
Definition kept (schemaKey : string) (d : ISbBlokPropertySchema) : bool :=
  negb (skipped schemaKey d) && negb (String.eqb schemaKey "__proto__").

(** The custom parser, if any, returns for every field. *)
Definition parserNeverThrows (self : Instance) : Prop :=
  match customTypeParser self with
  | Some parser => forall schemaKey d, exists fragment, parser schemaKey d = Ok fragment
  | None => True
  end.

Definition isFailure (c : CompileCall) : bool :=
  match call_result c with
  | Throw _ => true
  | Ok _ => false
  end.

Definition isComponentCall (c : CompileCall) : bool :=
  match call_input c with
  | ComponentInput _ => true
  | SharedInput _ => false
  end.

Definition isSharedCall (c : CompileCall) : bool := negb (isComponentCall c).

(** What a call of the compiler adds to the output buffer: the text it
    returned, for a component always, for a shared kind when the text is not
    empty; nothing when it threw. *)
Definition emission (c : CompileCall) : option Emitted :=
  match call_result c with
  | Ok ts =>
      match call_input c with
      | ComponentInput _ => Some {| origin := ComponentDefinition (call_name c); text := ts |}
      | SharedInput _ =>
          if truthyStr (Some ts)
          then Some {| origin := SharedDefinition (call_name c); text := ts |}
          else None
      end
  | Throw _ => None
  end.

(** The five shapes of [BlokSchemaPropertyTypeAnnotation]: a [tsType]
    alone; a [type] with an [enum]; a [type] alone; the type "array" with
    [items] that carry a [type]; the type "array" with [items] that carry an
    [enum]. *)
Definition wellShaped (a : BlokSchemaPropertyTypeAnnotation) : bool :=
  match a_tsType a, a_items a, a_enum a, a_type a with
  | Some _, None, None, None => true
  | None, None, _, Some _ => true
  | None, Some its, None, Some (One t) =>
      String.eqb t "array" &&
      match items_type its, items_enum its with
      | Some _, None => true
      | None, Some _ => true
      | _, _ => false
      end
  | _, _, _, _ => false
  end.

(** The component [c] belongs to the group [g]: the test of the reduce in
    [#generateComponentGroupsAndComponentNamesFromJSONSchemas]. *)
Definition inGroup (g : string) (c : ComponentJSONSchema) : Prop :=
  component_group_uuid c = Some g /\ g <> "".

(** The first line of every output. *)
Definition importEntry : Emitted :=
  {| origin := ImportLine;
     text := "import type { ISbStoryData } from " +:+ dq +:+ "storyblok" +:+ dq +:+ ";" |}.

Section Reports.

Variable imp : Imports.

(** The line printed for a call of the compiler that failed: the catch of
    [generateTSFile] for a component, the catch of
    [#generateAutogeneratedType] for a shared kind. *)
Definition report (self : Instance) (c : CompileCall) : option ConsoleEntry :=
  match call_result c with
  | Ok _ => None
  | Throw e =>
      Some match call_input c with
           | ComponentInput _ => ConsoleLog ["ERROR"; e]
           | SharedInput _ =>
               ConsoleError ["Error generating type " +:+ call_name c +:+ " with title "
                             +:+ getBlokTypeName imp self (call_name c); e]
           end
  end.

End Reports.

(** The names under which [compile] was called for a component, in order. *)
Definition compiledComponents (st : State) : list string :=
  map call_name (List.filter isComponentCall (compileCalls st)).

(** The line feed [#writeTypeDefs] joins the buffer with. *)
Definition nl : string := String (Ascii.ascii_of_nat 10) EmptyString.

(** The registry and the history of the compiler agree. *)
Definition registryAgrees (st : State) : Prop :=
  registryInv st /\ forall kind, generated st kind = true -> rendersOf kind st = 1%nat.

(** No character of [s] is a space. *)
Definition spaceFree (s : string) : bool :=
  forallb (fun c => negb (Ascii.eqb c " ")) (list_ascii_of_string s).

(** ** Further inputs of the worked examples *)

(** A parser that throws on every field. *)
Definition brokenParser : CustomTypeParser := fun _ _ => Throw "parser failed".

(** The imports [i] over a file system that refuses every write. *)
Definition readOnly (i : Imports) : Imports :=
  {| camelCase := camelCase i;
     startCase := startCase i;
     getAssetJSONSchema := getAssetJSONSchema i;
     getMultiassetJSONSchema := getMultiassetJSONSchema i;
     getMultilinkJSONSchema := getMultilinkJSONSchema i;
     getRichtextJSONSchema := getRichtextJSONSchema i;
     getTableJSONSchema := getTableJSONSchema i;
     compile := compile i;
     writeFileSync := fun _ _ => Throw "EACCES: permission denied" |}.

(** A module loader that finds no module. *)
Definition missingModule : string -> Result (option CustomTypeParser) :=
  fun _ => Throw "Cannot find module".

(** A component with a tab marker, a custom field and a shared field. *)
Definition page : ComponentJSONSchema :=
  {| name := "page"; component_group_uuid := None;
     schema := [("tab-seo", plainField "tab"); ("title", headline);
                ("accent", customField); ("image", plainField "asset")] |}.

(** A "bloks" field restricted to the groups given. *)
Definition restrictedToGroups (whitelist : list string) : ISbBlokPropertySchema :=
  {| type_ := "bloks"; required := None; source := None; options := None;
     filter_content_type := None; restrict_components := Some true;
     component_whitelist := None; component_group_whitelist := Some whitelist;
     restrict_type := Some "groups"; exclude_empty_option := None;
     email_link_type := None; asset_link_type := None |}.

(** A "bloks" field restricted to the components given. *)
Definition restrictedToComponents (whitelist : list string) : ISbBlokPropertySchema :=
  {| type_ := "bloks"; required := None; source := None; options := None;
     filter_content_type := None; restrict_components := Some true;
     component_whitelist := Some whitelist; component_group_whitelist := None;
     restrict_type := Some ""; exclude_empty_option := None;
     email_link_type := None; asset_link_type := None |}.

(** A field of the kind given with the two options "a" and "b" and an
    optional source. *)
Definition choiceField (kind : string) (source_ : option string) (exclude : option bool)
  : ISbBlokPropertySchema :=
  {| type_ := kind; required := None; source := source_;
     options := Some [ {| opt_uid := "1"; opt_name := "A"; opt_value := "a" |};
                       {| opt_uid := "2"; opt_name := "B"; opt_value := "b" |} ];
     filter_content_type := None; restrict_components := None;
     component_whitelist := None; component_group_whitelist := None;
     restrict_type := None; exclude_empty_option := exclude;
     email_link_type := None; asset_link_type := None |}.

(** * Properties *)

Section Properties.

Variable imp : Imports.

Lemma filter_snoc {A} (f : A -> bool) (l : list A) (x : A) :
  List.filter f (l ++ [x]) = List.filter f l ++ (if f x then [x] else []).
Proof.
  induction l as [|y l IH]; simpl.
  - destruct (f x); reflexivity.
  - rewrite IH. destruct (f y); reflexivity.
Qed.

Lemma length_filter_snoc {A} (f : A -> bool) (l : list A) (x : A) :
  length (List.filter f (l ++ [x])) =
  (length (List.filter f l) + (if f x then 1 else 0))%nat.
Proof.
  rewrite filter_snoc, length_app. destruct (f x); reflexivity.
Qed.

Lemma initialState_inv : registryInv initialState.
Proof.
  intros kind. unfold emittedFor, rendersOf. simpl. repeat split; lia.
Qed.

Lemma generateType_outcome typeName title st :
  GenerateTypeOutcome imp typeName title st (generateType imp typeName title st).
Proof.
  unfold generateType. fold (generated st typeName).
  destruct (generated st typeName) eqn:Hflag; simpl; [constructor|].
  unfold generateAutogeneratedType, tryCatch.
  destruct (mapGet (getAutogeneratedTypeSchema imp) typeName) as [builder|]; [|constructor].
  destruct (jsTruthy (builder title)); [|constructor].
  unfold generateTypeString, bind, callCompile, markGenerated, ret, print. simpl.
  destruct (compile imp (length (compileCalls st)) (SharedInput (builder title)) typeName)
    as [ts|e] eqn:Hc.
  - simpl. rewrite <- Hc at 1. rewrite Hc. eapply Rendered; eauto.
  - simpl. eapply Failed; eauto.
Qed.

(** *** The registry invariant is kept by every step *)

Lemma generated_insert_eq (reg : gmap string bool) typeName :
  truthy (<[typeName := true]> reg !! typeName) = true.
Proof. by rewrite lookup_insert_eq. Qed.

Lemma generated_insert_ne (reg : gmap string bool) typeName kind :
  typeName <> kind ->
  truthy (<[typeName := true]> reg !! kind) = truthy (reg !! kind).
Proof. intros Hne. by rewrite lookup_insert_ne. Qed.

Ltac count_snoc :=
  unfold emittedFor, rendersOf in *; simpl in *;
  rewrite ?length_filter_snoc in *;
  unfold isRender, isSharedDefinition in *; simpl in *.

Lemma inv_failed st (entry : ConsoleEntry) schema_ typeName e :
  registryInv st ->
  registryInv
    {| typeDefsFileStrings := typeDefsFileStrings st;
       hasTypeBeenGenerated := hasTypeBeenGenerated st;
       console := console st ++ [entry];
       compileCalls :=
         compileCalls st ++
         [ {| call_input := SharedInput schema_; call_name := typeName;
              call_result := Throw e |} ] |}.
Proof.
  intros Hinv kind. destruct (Hinv kind) as (H1 & H2 & H3).
  unfold generated in *. count_snoc. repeat split; try lia; intros Hf; specialize (H3 Hf); lia.
Qed.

Lemma inv_rendered st schema_ typeName ts (pushed : bool) :
  registryInv st ->
  generated st typeName = false ->
  registryInv
    {| typeDefsFileStrings :=
         if pushed
         then typeDefsFileStrings st ++ [ {| origin := SharedDefinition typeName; text := ts |} ]
         else typeDefsFileStrings st;
       hasTypeBeenGenerated := <[typeName := true]> (hasTypeBeenGenerated st);
       console := console st;
       compileCalls :=
         compileCalls st ++
         [ {| call_input := SharedInput schema_; call_name := typeName;
              call_result := Ok ts |} ] |}.
Proof.
  intros Hinv Hflag kind. destruct (Hinv kind) as (H1 & H2 & H3).
  unfold generated in *. destruct pushed; count_snoc.
  all: destruct (String.eqb_spec typeName kind) as [->|Hne].
  all: rewrite ?generated_insert_eq, ?generated_insert_ne by assumption.
  all: repeat split; try lia; try discriminate.
  all: try (specialize (H3 Hflag); lia).
  all: intros Hf; specialize (H3 Hf); lia.
Qed.

Lemma inv_component_call st (obj : ComponentObject) name_ r :
  registryInv st ->
  registryInv
    {| typeDefsFileStrings := typeDefsFileStrings st;
       hasTypeBeenGenerated := hasTypeBeenGenerated st;
       console := console st;
       compileCalls :=
         compileCalls st ++
         [ {| call_input := ComponentInput obj; call_name := name_; call_result := r |} ] |}.
Proof.
  intros Hinv kind. destruct (Hinv kind) as (H1 & H2 & H3).
  unfold generated in *. count_snoc. repeat split; try lia; intros Hf; specialize (H3 Hf); lia.
Qed.

Lemma inv_component_push st name_ ts :
  registryInv st ->
  registryInv
    {| typeDefsFileStrings :=
         typeDefsFileStrings st ++ [ {| origin := ComponentDefinition name_; text := ts |} ];
       hasTypeBeenGenerated := hasTypeBeenGenerated st;
       console := console st;
       compileCalls := compileCalls st |}.
Proof.
  intros Hinv kind. destruct (Hinv kind) as (H1 & H2 & H3).
  unfold generated in *. count_snoc. repeat split; try lia; intros Hf; specialize (H3 Hf); lia.
Qed.

Lemma inv_print st entry :
  registryInv st ->
  registryInv
    {| typeDefsFileStrings := typeDefsFileStrings st;
       hasTypeBeenGenerated := hasTypeBeenGenerated st;
       console := console st ++ [entry];
       compileCalls := compileCalls st |}.
Proof. intros Hinv kind. exact (Hinv kind). Qed.

Lemma bind_inv {A B} (P : State -> Prop) (m : M A) (k : A -> M B) st :
  P (snd (m st)) ->
  (forall a st', P st' -> P (snd (k a st'))) ->
  P (snd (bind m k st)).
Proof.
  intros Hm Hk. unfold bind. destruct (m st) as [[a|e] st1]; simpl in *; auto.
Qed.

(** The part of [#typeMapper] that handles a shared kind: render if needed,
    push what was rendered, go on. *)
Lemma sharedStep_inv {B} typeName title (k : M B) st :
  registryInv st ->
  (forall st', registryInv st' -> registryInv (snd (k st'))) ->
  registryInv
    (snd (bind (generateType imp typeName title)
            (fun ts =>
               bind
                 match ts with
                 | Some ts' =>
                     if truthyStr (Some ts')
                     then pushTypeDef {| origin := SharedDefinition typeName; text := ts' |}
                     else ret tt
                 | None => ret tt
                 end
                 (fun _ => k)) st)).
Proof.
  intros Hinv Hk. unfold bind at 1.
  destruct (generateType_outcome typeName title st) as [|schema_ ts Hflag Hc|schema_ e Hflag Hc];
    cbv beta iota.
  - apply bind_inv; auto.
  - apply bind_inv; [|auto].
    destruct (truthyStr (Some ts)).
    + exact (inv_rendered st schema_ typeName ts true Hinv Hflag).
    + exact (inv_rendered st schema_ typeName ts false Hinv Hflag).
  - apply bind_inv; [|auto]. by apply inv_failed.
Qed.

Lemma typeMapperEntry_inv self parseObj entry st :
  registryInv st -> registryInv (snd (typeMapperEntry imp self parseObj entry st)).
Proof.
  intros Hinv. destruct entry as [schemaKey schemaElement]. unfold typeMapperEntry.
  destruct (String.prefix "tab-" schemaKey); [exact Hinv|].
  destruct (String.eqb (type_ schemaElement) "custom").
  - destruct (customTypeParser self) as [parser|]; [|exact Hinv].
    apply bind_inv; auto.
  - apply bind_inv; [|auto].
    destruct (includes (autogeneratedPropertyTypes imp) (type_ schemaElement)); [|exact Hinv].
    apply sharedStep_inv; auto.
Qed.

Lemma typeMapperLoop_inv self entries : forall parseObj st,
  registryInv st -> registryInv (snd (typeMapperLoop imp self entries parseObj st)).
Proof.
  induction entries as [|entry rest IH]; intros parseObj st Hinv; simpl; [exact Hinv|].
  unfold bind.
  pose proof (typeMapperEntry_inv self parseObj entry st Hinv) as H1.
  destruct (typeMapperEntry imp self parseObj entry st) as [[parseObj'|e] st1]; simpl in *.
  - by apply IH.
  - exact H1.
Qed.

Lemma generateComponent_inv self component st :
  registryInv st -> registryInv (snd (generateComponent imp self component st)).
Proof.
  intros Hinv. unfold generateComponent, typeMapper, bind.
  pose proof (typeMapperLoop_inv self (schema component) ∅ st Hinv) as H1.
  destruct (typeMapperLoop imp self (schema component) ∅ st) as [[properties|e] st1];
    simpl in *; [|exact H1].
  unfold tryCatch, bind, callCompile, pushTypeDef, print.
  destruct (compile imp (length (compileCalls st1)) _ (name component)) as [ts|e]; simpl.
  - apply (inv_component_push
             {| typeDefsFileStrings := typeDefsFileStrings st1;
                hasTypeBeenGenerated := hasTypeBeenGenerated st1;
                console := console st1;
                compileCalls := _ |}).
    by apply inv_component_call.
  - apply (inv_print
             {| typeDefsFileStrings := typeDefsFileStrings st1;
                hasTypeBeenGenerated := hasTypeBeenGenerated st1;
                console := console st1;
                compileCalls := _ |}).
    by apply inv_component_call.
Qed.

Lemma generateComponents_inv self components : forall st,
  registryInv st -> registryInv (snd (generateComponents imp self components st)).
Proof.
  induction components as [|component rest IH]; intros st Hinv; simpl; [exact Hinv|].
  unfold bind.
  pose proof (generateComponent_inv self component st Hinv) as H1.
  destruct (generateComponent imp self component st) as [[[]|e] st1]; simpl in *.
  - by apply IH.
  - exact H1.
Qed.

(** [#writeTypeDefs] does not touch the state of the instance. *)
Lemma writeTypeDefs_state self st : snd (writeTypeDefs imp self st) = st.
Proof.
  unfold writeTypeDefs. destruct (textToWrite self st) as [contents|]; [|reflexivity].
  by destruct (writeFileSync imp (destinationFilePath (opts self)) contents).
Qed.

Lemma run_inv schemas o parser : registryInv (snd (run imp schemas o parser)).
Proof.
  unfold run, generateTSFile. apply bind_inv.
  - apply generateComponents_inv, initialState_inv.
  - intros [] st' Hinv. by rewrite writeTypeDefs_state.
Qed.

(** *** The registry is never reset *)

Lemma generateType_keeps typeName title kind st :
  generated st kind = true ->
  generated (snd (generateType imp typeName title st)) kind = true.
Proof.
  intros Hk.
  destruct (generateType_outcome typeName title st) as [|schema_ ts Hflag Hc|schema_ e Hflag Hc];
    simpl; auto.
  unfold generated in *; simpl.
  destruct (String.eqb_spec typeName kind) as [->|Hne].
  - apply generated_insert_eq.
  - by rewrite generated_insert_ne.
Qed.

Lemma typeMapperEntry_keeps self parseObj entry kind st :
  generated st kind = true ->
  generated (snd (typeMapperEntry imp self parseObj entry st)) kind = true.
Proof.
  intros Hk. destruct entry as [schemaKey schemaElement]. unfold typeMapperEntry.
  destruct (String.prefix "tab-" schemaKey); [exact Hk|].
  destruct (String.eqb (type_ schemaElement) "custom").
  - destruct (customTypeParser self) as [parser|]; [|exact Hk].
    apply (bind_inv (fun s => generated s kind = true)); auto.
  - apply (bind_inv (fun s => generated s kind = true)); [|auto].
    destruct (includes (autogeneratedPropertyTypes imp) (type_ schemaElement)); [|exact Hk].
    apply (bind_inv (fun s => generated s kind = true)).
    + by apply generateType_keeps.
    + intros ts st' Hst'. apply (bind_inv (fun s => generated s kind = true)); [|auto].
      destruct ts as [ts'|]; [|exact Hst'].
      destruct (truthyStr (Some ts')); exact Hst'.
Qed.

Lemma typeMapperLoop_keeps self entries kind : forall parseObj st,
  generated st kind = true ->
  generated (snd (typeMapperLoop imp self entries parseObj st)) kind = true.
Proof.
  induction entries as [|entry rest IH]; intros parseObj st Hk; simpl; [exact Hk|].
  apply (bind_inv (fun s => generated s kind = true)).
  - by apply typeMapperEntry_keeps.
  - intros parseObj' st' Hst'. by apply IH.
Qed.

Lemma generateComponent_keeps self component kind st :
  generated st kind = true ->
  generated (snd (generateComponent imp self component st)) kind = true.
Proof.
  intros Hk. unfold generateComponent.
  apply (bind_inv (fun s => generated s kind = true)).
  - by apply typeMapperLoop_keeps.
  - intros properties st' Hst'. unfold tryCatch, bind, callCompile, pushTypeDef, print.
    destruct (compile imp (length (compileCalls st')) _ (name component)); exact Hst'.
Qed.

(** ** The claims *)

(** C1. In every run and for every shared kind, the output buffer holds at
    most one definition rendered for that kind, however many fields of
    however many components carry it.  The kind is compiled with success,
    and its registry entry set to true right after, at most once per run; once the
    entry is true [#generateType] returns without rendering and leaves the
    state alone, and no component resets the entry. *)
Theorem shared_kind_emitted_at_most_once
  (schemas : list ComponentJSONSchema) (o : Options) (parser : option CustomTypeParser)
  (kind : string) :
  (emittedFor kind (snd (run imp schemas o parser)) <= 1)%nat /\
  (rendersOf kind (snd (run imp schemas o parser)) <= 1)%nat /\
  (forall st title,
      generated st kind = true -> generateType imp kind title st = (Ok None, st)) /\
  (forall self component st,
      generated st kind = true ->
      generated (snd (generateComponent imp self component st)) kind = true).
Proof.
  destruct (run_inv schemas o parser kind) as (H1 & H2 & _).
  split; [lia|]. split; [exact H2|]. split.
  - intros st title Hk. unfold generateType. fold (generated st kind). by rewrite Hk.
  - intros self component st. apply generateComponent_keeps.
Qed.

(** *** The group index *)

Lemma includes_elem_of (l : list string) (x : string) : includes l x = true <-> x ∈ l.
Proof.
  unfold includes. rewrite existsb_exists, list_elem_of_In. split.
  - intros (y & Hy & Heq). apply String.eqb_eq in Heq. by subst.
  - intros Hx. exists x. split; [exact Hx|apply String.eqb_refl].
Qed.

Lemma setAdd_elem_of (s : list string) (x y : string) : y ∈ setAdd s x <-> y ∈ s \/ y = x.
Proof.
  unfold setAdd. destruct (includes s x) eqn:Hin.
  - apply includes_elem_of in Hin. split; [auto|]. intros [H| ->]; auto.
  - rewrite elem_of_app, list_elem_of_singleton. tauto.
Qed.

Lemma setAdd_NoDup (s : list string) (x : string) : NoDup s -> NoDup (setAdd s x).
Proof.
  intros Hnd. unfold setAdd. destruct (includes s x) eqn:Hin; [exact Hnd|].
  apply NoDup_app. split; [exact Hnd|]. split; [|apply NoDup_singleton].
  intros y Hy Hyx. apply list_elem_of_singleton in Hyx. subst y.
  apply includes_elem_of in Hy. congruence.
Qed.

Lemma componentNames_fold (components : list ComponentJSONSchema) :
  forall acc,
    componentNames (fold_left groupsStep components acc) =
    fold_left setAdd (map name components) (componentNames acc).
Proof.
  induction components as [|c rest IH]; intros acc; simpl; [reflexivity|].
  by rewrite IH.
Qed.

Lemma fold_setAdd_elem_of (xs : list string) : forall (s : list string) (y : string),
  y ∈ fold_left setAdd xs s <-> y ∈ s \/ y ∈ xs.
Proof.
  induction xs as [|x xs IH]; intros s y; simpl.
  - rewrite elem_of_nil. tauto.
  - rewrite IH, setAdd_elem_of, elem_of_cons. tauto.
Qed.

Lemma fold_setAdd_NoDup (xs : list string) : forall s : list string,
  NoDup s -> NoDup (fold_left setAdd xs s).
Proof.
  induction xs as [|x xs IH]; intros s Hnd; simpl; [exact Hnd|].
  apply IH. by apply setAdd_NoDup.
Qed.

(** The names of the index are exactly the names of the components of the
    run, each once, with or without a group. *)
Lemma names_new schemas o parser :
  NoDup (names (new schemas o parser)) /\
  forall n, n ∈ names (new schemas o parser) <-> exists c, c ∈ schemas /\ name c = n.
Proof.
  unfold new, generateComponentGroupsAndComponentNamesFromJSONSchemas; simpl.
  rewrite componentNames_fold; simpl. split.
  - apply fold_setAdd_NoDup, NoDup_nil. exact I.
  - intros n. rewrite fold_setAdd_elem_of, elem_of_nil, list_elem_of_fmap.
    split.
    + intros [[]|(c & -> & Hc)]. eauto.
    + intros (c & Hc & <-). right. eauto.
Qed.

(** *** One iteration of [#typeMapper], by kind of field *)

Lemma assignOwn_insert (parseObj : gmap string PropertySchema) schemaKey element :
  schemaKey <> "__proto__" ->
  assignOwn parseObj schemaKey element = <[schemaKey := element]> parseObj.
Proof.
  intros Hproto. unfold assignOwn.
  by destruct (String.eqb_spec schemaKey "__proto__").
Qed.

Lemma typeMapperEntry_bloks self parseObj schemaKey d st :
  String.prefix "tab-" schemaKey = false ->
  schemaKey <> "__proto__" ->
  type_ d = "bloks" ->
  typeMapperEntry imp self parseObj (schemaKey, d) st =
  (Ok (<[schemaKey :=
           Annotated
             match bloksTsType imp self d with
             | Some ts => setTsType ts (parseBlokSchemaProperty imp self d)
             | None => parseBlokSchemaProperty imp self d
             end]> parseObj), st).
Proof.
  intros Hkey Hproto Hty. rewrite <- (assignOwn_insert _ _ _ Hproto).
  unfold typeMapperEntry. rewrite Hkey, Hty. reflexivity.
Qed.

Lemma parse_bloks self d :
  type_ d = "bloks" ->
  (isStr (source d) "internal_stories" = false \/ filter_content_type d = None) ->
  parseBlokSchemaProperty imp self d = annType (One "array").
Proof.
  intros Hty Hsrc. unfold parseBlokSchemaProperty. rewrite Hty. simpl.
  destruct Hsrc as [-> | ->]; [reflexivity|].
  destruct (isStr (source d) "internal_stories"); reflexivity.
Qed.

Lemma bloksTsType_missing self d :
  truthy (restrict_components d) = true ->
  nonEmptyArray (restrictionList d) = None ->
  bloksTsType imp self d = None.
Proof.
  intros Hrestrict. unfold bloksTsType, restrictionList. rewrite Hrestrict.
  destruct (isStr (restrict_type d) "groups"); by intros ->.
Qed.

(** C2, as the code has it.  For a "bloks" field with [restrict_components]
    true that the loop keeps (its key neither starts with [tab-] nor is
    [__proto__]) no error is raised and the state is left alone.  When the
    field is
    restricted by groups, its group list is not empty and the lookup of the
    groups yields no component name, the type is [never[]].  When the
    restriction list (the group list under [restrict_type] "groups", the
    component list otherwise) is missing or empty, no [tsType] is assigned:
    the field keeps the annotation of [#parseBlokSchemaProperty], which is
    the plain array without [tsType] unless the field has an
    "internal_stories" content filter. *)
Theorem bloks_restricted_degenerate self parseObj schemaKey d st :
  String.prefix "tab-" schemaKey = false ->
  schemaKey <> "__proto__" ->
  type_ d = "bloks" ->
  truthy (restrict_components d) = true ->
  exists element,
    typeMapperEntry imp self parseObj (schemaKey, d) st =
      (Ok (<[schemaKey := Annotated element]> parseObj), st) /\
    (forall whitelist,
        isStr (restrict_type d) "groups" = true ->
        nonEmptyArray (component_group_whitelist d) = Some whitelist ->
        currentGroupElements imp self whitelist = [] ->
        a_tsType element = Some "never[]") /\
    (nonEmptyArray (restrictionList d) = None ->
     element = parseBlokSchemaProperty imp self d /\
     (isStr (source d) "internal_stories" = false \/ filter_content_type d = None ->
      element = annType (One "array") /\ a_tsType element = None)).
Proof.
  intros Hkey Hproto Hty Hrestrict. eexists. split; [by apply typeMapperEntry_bloks|]. split.
  - intros whitelist Hgroups Hlist Hempty.
    unfold bloksTsType. rewrite Hrestrict, Hgroups, Hlist, Hempty. reflexivity.
  - intros Hnone. rewrite (bloksTsType_missing self d Hrestrict Hnone).
    split; [reflexivity|]. intros Hsrc. rewrite (parse_bloks self d Hty Hsrc). by split.
Qed.

(** C4. For a "bloks" field whose [restrict_components] is false or absent
    and that the loop keeps (its key neither starts with [tab-] nor is
    [__proto__]), the type is the array over the union of the formatted
    names of all the
    components of the run: the index holds the name of every component, the
    owner of the field and the components without a group included, each
    once. *)
Theorem bloks_unrestricted_all_components schemas o parser parseObj schemaKey d st :
  String.prefix "tab-" schemaKey = false ->
  schemaKey <> "__proto__" ->
  type_ d = "bloks" ->
  truthy (restrict_components d) = false ->
  exists element,
    typeMapperEntry imp (new schemas o parser) parseObj (schemaKey, d) st =
      (Ok (<[schemaKey := Annotated element]> parseObj), st) /\
    a_tsType element =
      Some ("(" +:+ String.concat " | "
              (map (getBlokTypeName imp (new schemas o parser)) (names (new schemas o parser)))
            +:+ ")[]") /\
    NoDup (names (new schemas o parser)) /\
    (forall n, n ∈ names (new schemas o parser) <-> exists c, c ∈ schemas /\ name c = n).
Proof.
  intros Hkey Hproto Hty Hrestrict. eexists. split; [by apply typeMapperEntry_bloks|].
  split; [|apply names_new].
  unfold bloksTsType. rewrite Hrestrict. reflexivity.
Qed.

Lemma sharedStep_ok typeName title st : fst (sharedStep imp typeName title st) = Ok tt.
Proof.
  unfold sharedStep, bind.
  destruct (generateType_outcome typeName title st) as [|schema_ ts Hflag Hc|schema_ e Hflag Hc];
    cbv beta iota; try reflexivity.
  destruct (truthyStr (Some ts)); reflexivity.
Qed.

Lemma shared_kinds typeName :
  includes (autogeneratedPropertyTypes imp) typeName = true ->
  typeName = "asset" \/ typeName = "multiasset" \/ typeName = "multilink" \/
  typeName = "richtext" \/ typeName = "table".
Proof.
  intros Hin. apply includes_elem_of in Hin. cbn in Hin.
  repeat (apply elem_of_cons in Hin; destruct Hin as [->|Hin]; [tauto|]).
  by apply elem_of_nil in Hin.
Qed.

Lemma typeMapperEntry_shared self parseObj schemaKey d st :
  String.prefix "tab-" schemaKey = false ->
  includes (autogeneratedPropertyTypes imp) (type_ d) = true ->
  typeMapperEntry imp self parseObj (schemaKey, d) st =
  (Ok (assignOwn parseObj schemaKey
         (Annotated
            (if String.eqb (type_ d) "multilink"
             then setTsType (multilinkTsType imp self d) (annType (One (type_ d)))
             else setTsType (getBlokTypeName imp self (type_ d)) (annType (One (type_ d)))))),
   snd (sharedStep imp (type_ d) (getBlokTypeName imp self (type_ d)) st)).
Proof.
  intros Hkey Hshared. unfold typeMapperEntry. rewrite Hkey.
  assert (parseBlokSchemaProperty imp self d = annType (One (type_ d))) as ->.
  { unfold parseBlokSchemaProperty. by rewrite Hshared. }
  rewrite Hshared.
  pose proof (sharedStep_ok (type_ d) (getBlokTypeName imp self (type_ d)) st) as Hok.
  revert Hok. unfold sharedStep, bind.
  destruct (shared_kinds _ Hshared) as [Hty|[Hty|[Hty|[Hty|Hty]]]]; rewrite !Hty;
    cbn [String.eqb Ascii.eqb Bool.eqb];
    (destruct (generateType imp _ (getBlokTypeName imp self _) st)
       as [[[[|c ts']|]|e] st1]; [| | |discriminate]);
    intros _; reflexivity.
Qed.


(** C6, as the code has it.  [#parseBlokSchemaProperty] takes the
    "internal_stories" rule exactly when the kind is not one of the five
    shared kinds, [source] is "internal_stories" and [filter_content_type]
    is present, empty or not.  The result is then the union of the story
    type of each listed content type and of [string], followed by [[]]
    exactly when the kind is "options"; in every other case the annotation
    has no [tsType]. *)
Theorem internal_stories_rule self d :
  (forall contentTypes,
      includes (autogeneratedPropertyTypes imp) (type_ d) = false ->
      source d = Some "internal_stories" ->
      filter_content_type d = Some contentTypes ->
      parseBlokSchemaProperty imp self d = storiesAnnotation imp self d contentTypes) /\
  (a_tsType (parseBlokSchemaProperty imp self d) <> None ->
   includes (autogeneratedPropertyTypes imp) (type_ d) = false /\
   source d = Some "internal_stories" /\
   filter_content_type d <> None).
Proof.
  split.
  - intros contentTypes Hshared Hsrc Hfilter.
    unfold parseBlokSchemaProperty. rewrite Hshared, Hsrc, Hfilter. reflexivity.
  - unfold parseBlokSchemaProperty.
    destruct (includes (autogeneratedPropertyTypes imp) (type_ d)); [simpl; congruence|].
    destruct (isStr (source d) "internal_stories") eqn:Hsrc.
    + destruct (filter_content_type d) as [contentTypes|].
      * intros _. repeat split; [|congruence].
        unfold isStr in Hsrc. destruct (source d) as [v|]; [|discriminate].
        apply String.eqb_eq in Hsrc. by subst.
      * intros Hts. exfalso. apply Hts.
        repeat match goal with |- context [if ?b then _ else _] => destruct b end;
          reflexivity.
    + intros Hts. exfalso. apply Hts.
      repeat match goal with |- context [if ?b then _ else _] => destruct b end;
        reflexivity.
Qed.

(** *** A render that fails *)

Lemma compileCalls_sharedStep typeName title builder st :
  mapGet (getAutogeneratedTypeSchema imp) typeName = Some builder ->
  jsTruthy (builder title) = true ->
  generated st typeName = false ->
  compileCalls (snd (sharedStep imp typeName title st)) =
  compileCalls st ++
  [ {| call_input := SharedInput (builder title); call_name := typeName;
       call_result :=
         compile imp (length (compileCalls st)) (SharedInput (builder title)) typeName |} ].
Proof.
  intros Hget Htruthy Hflag.
  unfold sharedStep, bind, generateType. fold (generated st typeName). rewrite Hflag. simpl.
  unfold generateAutogeneratedType, tryCatch. rewrite Hget, Htruthy.
  unfold generateTypeString, bind, callCompile, markGenerated, ret, print. simpl.
  destruct (compile imp (length (compileCalls st)) (SharedInput (builder title)) typeName)
    as [ts|e]; simpl; [|reflexivity].
  destruct ts; reflexivity.
Qed.

Lemma sharedStep_failed typeName title builder st e :
  mapGet (getAutogeneratedTypeSchema imp) typeName = Some builder ->
  jsTruthy (builder title) = true ->
  generated st typeName = false ->
  compile imp (length (compileCalls st)) (SharedInput (builder title)) typeName = Throw e ->
  snd (sharedStep imp typeName title st) =
  {| typeDefsFileStrings := typeDefsFileStrings st;
     hasTypeBeenGenerated := hasTypeBeenGenerated st;
     console :=
       console st ++
       [ConsoleError ["Error generating type " +:+ typeName +:+ " with title " +:+ title; e]];
     compileCalls :=
       compileCalls st ++
       [ {| call_input := SharedInput (builder title); call_name := typeName;
            call_result := Throw e |} ] |}.
Proof.
  intros Hget Htruthy Hflag Hfail.
  unfold sharedStep, bind, generateType. fold (generated st typeName). rewrite Hflag. simpl.
  unfold generateAutogeneratedType, tryCatch. rewrite Hget, Htruthy.
  unfold generateTypeString, bind, callCompile, markGenerated, ret, print. simpl.
  rewrite Hfail. reflexivity.
Qed.

Lemma mapGet_includes {A} (m : list (string * A)) (k : string) (v : A) :
  mapGet m k = Some v -> includes (map fst m) k = true.
Proof.
  induction m as [|[k' v'] m IH]; simpl; [discriminate|].
  rewrite (String.eqb_sym k k'). destruct (String.eqb k' k); simpl; auto.
Qed.

(** C7. When the compiler rejects the shared schema of a kind, a field of
    that kind that the loop keeps (its key neither starts with [tab-] nor is
    [__proto__]) still gets its annotation (the kind, and the reference to
    the shared name as [tsType]) and nothing is thrown; nothing is pushed,
    the error is
    printed, and the registry entry of the kind stays false, so that the
    next field of that kind calls the compiler for the kind once more. *)
Theorem shared_render_failure_is_retried self parseObj schemaKey d st builder e :
  String.prefix "tab-" schemaKey = false ->
  schemaKey <> "__proto__" ->
  mapGet (getAutogeneratedTypeSchema imp) (type_ d) = Some builder ->
  jsTruthy (builder (getBlokTypeName imp self (type_ d))) = true ->
  generated st (type_ d) = false ->
  compile imp (length (compileCalls st))
    (SharedInput (builder (getBlokTypeName imp self (type_ d)))) (type_ d) = Throw e ->
  exists element st',
    typeMapperEntry imp self parseObj (schemaKey, d) st =
      (Ok (<[schemaKey := Annotated element]> parseObj), st') /\
    a_type element = Some (One (type_ d)) /\
    a_tsType element =
      Some (if String.eqb (type_ d) "multilink"
            then multilinkTsType imp self d
            else getBlokTypeName imp self (type_ d)) /\
    typeDefsFileStrings st' = typeDefsFileStrings st /\
    generated st' (type_ d) = false /\
    forall parseObj2 schemaKey2 d2,
      String.prefix "tab-" schemaKey2 = false ->
      type_ d2 = type_ d ->
      compileCalls (snd (typeMapperEntry imp self parseObj2 (schemaKey2, d2) st')) =
      compileCalls st' ++
      [ {| call_input := SharedInput (builder (getBlokTypeName imp self (type_ d)));
           call_name := type_ d;
           call_result :=
             compile imp (length (compileCalls st'))
               (SharedInput (builder (getBlokTypeName imp self (type_ d)))) (type_ d) |} ].
Proof.
  intros Hkey Hproto Hget Htruthy Hflag Hfail.
  pose proof (mapGet_includes _ _ _ Hget) as Hshared.
  fold (autogeneratedPropertyTypes imp) in Hshared.
  eexists. eexists.
  split; [rewrite <- (assignOwn_insert _ _ _ Hproto); by apply typeMapperEntry_shared|].
  rewrite (sharedStep_failed _ _ builder st e Hget Htruthy Hflag Hfail).
  split; [by destruct (String.eqb (type_ d) "multilink")|].
  split; [by destruct (String.eqb (type_ d) "multilink")|].
  split; [reflexivity|]. split; [exact Hflag|].
  intros parseObj2 schemaKey2 d2 Hkey2 Hty2.
  rewrite typeMapperEntry_shared by (rewrite ?Hty2; assumption).
  cbn [snd]. rewrite Hty2.
  by rewrite (compileCalls_sharedStep _ _ builder).
Qed.

(** *** Custom fields and the system fields *)

Lemma requiredFields_fold (entries : list (string * ISbBlokPropertySchema)) :
  forall (acc : list string) (k : string),
    k ∈ fold_left
          (fun acc (kv : string * ISbBlokPropertySchema) =>
             if truthy (required (snd kv)) then acc ++ [fst kv] else acc)
          entries acc
    <-> k ∈ acc \/ exists d, (k, d) ∈ entries /\ truthy (required d) = true.
Proof.
  induction entries as [|[k' d'] entries IH]; intros acc k; simpl.
  - split; [auto|]. intros [H|(d & Hd & _)]; [exact H|]. by apply elem_of_nil in Hd.
  - rewrite IH. destruct (truthy (required d')) eqn:Hreq.
    + rewrite elem_of_app, list_elem_of_singleton. split.
      * intros [[H| ->]|(d & Hd & Hr)]; eauto.
        -- right. exists d'. split; [apply elem_of_cons; auto|exact Hreq].
        -- right. exists d. split; [apply elem_of_cons; auto|exact Hr].
      * intros [H|(d & Hd & Hr)]; [auto|].
        apply elem_of_cons in Hd. destruct Hd as [Heq|Hd]; [|eauto].
        inversion Heq; subst. auto.
    + split.
      * intros [H|(d & Hd & Hr)]; [auto|].
        right. exists d. split; [apply elem_of_cons; auto|exact Hr].
      * intros [H|(d & Hd & Hr)]; [auto|].
        apply elem_of_cons in Hd. destruct Hd as [Heq|Hd]; [|eauto].
        inversion Heq; subst. congruence.
Qed.

(** C9. A field of kind "custom" puts no entry of its own in the mapping of
    its component: the fragment returned by the custom parser is merged into
    the mapping, and the mapping is left as it is when no parser is
    configured.  The state is not touched.  The required fields of the
    component are computed from the schema alone: the two system fields and
    every key whose descriptor is marked required, the custom ones among
    them. *)
Theorem custom_field_is_substituted self component parseObj schemaKey d st :
  String.prefix "tab-" schemaKey = false ->
  type_ d = "custom" ->
  (customTypeParser self = None ->
   typeMapperEntry imp self parseObj (schemaKey, d) st = (Ok parseObj, st)) /\
  (forall parser fragment,
      customTypeParser self = Some parser ->
      parser schemaKey d = Ok fragment ->
      typeMapperEntry imp self parseObj (schemaKey, d) st = (Ok (fragment ∪ parseObj), st)) /\
  (forall properties k,
      k ∈ obj_required (componentObject imp self component properties) <->
      k = "component" \/ k = "_uid" \/
      exists d', (k, d') ∈ schema component /\ truthy (required d') = true).
Proof.
  intros Hkey Hty. unfold typeMapperEntry. rewrite Hkey, Hty. simpl. repeat split.
  - intros ->. unfold ret. by rewrite (left_id_L ∅ (∪)).
  - intros parser fragment -> Hfrag. unfold bind, liftResult, ret. by rewrite Hfrag.
  - unfold requiredFields. rewrite requiredFields_fold, !elem_of_cons, elem_of_nil. tauto.
  - unfold requiredFields. rewrite requiredFields_fold, !elem_of_cons, elem_of_nil. tauto.
Qed.

(** C10. Whenever [#typeMapper] returns for a component, the object handed
    to the compiler for it maps [_uid] to the plain string type and
    [component] to the string type whose only enum value is the name of the
    component, whatever [#typeMapper] had put under these two keys. *)
Theorem system_fields_overwrite self component st properties st1 :
  typeMapper imp self (schema component) st = (Ok properties, st1) ->
  exists obj result,
    compileCalls (snd (generateComponent imp self component st)) =
      compileCalls st1 ++
      [ {| call_input := ComponentInput obj; call_name := name component;
           call_result := result |} ] /\
    obj_properties obj !! "_uid" =
      Some (Annotated {| a_type := Some (One "string"); a_enum := None;
                         a_items := None; a_tsType := None |}) /\
    obj_properties obj !! "component" =
      Some (Annotated {| a_type := Some (One "string"); a_enum := Some [name component];
                         a_items := None; a_tsType := None |}) /\
    forall k, k <> "_uid" -> k <> "component" -> obj_properties obj !! k = properties !! k.
Proof.
  intros Hmap. exists (componentObject imp self component properties).
  exists (compile imp (length (compileCalls st1))
            (ComponentInput (componentObject imp self component properties)) (name component)).
  split.
  - unfold generateComponent, bind. rewrite Hmap.
    unfold tryCatch, bind, callCompile, pushTypeDef, print.
    destruct (compile imp (length (compileCalls st1)) _ (name component)); reflexivity.
  - simpl. split; [|split].
    + rewrite lookup_insert_ne by discriminate. by rewrite lookup_insert_eq.
    + by rewrite lookup_insert_eq.
    + intros k Hu Hc. by rewrite !lookup_insert_ne.
Qed.

(** *** A component the compiler rejects *)

(** All that is printed for a rejected component is the word ERROR and
    what the compiler threw; nothing is pushed and the loop goes on. *)
Lemma generateComponent_rejected self component st properties st1 e :
  typeMapper imp self (schema component) st = (Ok properties, st1) ->
  compile imp (length (compileCalls st1))
    (ComponentInput (componentObject imp self component properties)) (name component)
    = Throw e ->
  fst (generateComponent imp self component st) = Ok tt /\
  typeDefsFileStrings (snd (generateComponent imp self component st)) = typeDefsFileStrings st1 /\
  hasTypeBeenGenerated (snd (generateComponent imp self component st)) = hasTypeBeenGenerated st1 /\
  console (snd (generateComponent imp self component st)) =
    console st1 ++ [ConsoleLog ["ERROR"; e]].
Proof.
  intros Hmap Hfail. unfold generateComponent, bind. rewrite Hmap.
  unfold tryCatch, bind, callCompile, pushTypeDef, print. rewrite Hfail. by simpl.
Qed.

(** *** Type names *)

(** With a suffix configured, the name is built from prefix, raw name and
    suffix, an absent prefix counting as empty; it depends on nothing
    else. *)
Lemma getBlokTypeName_configured self suffix raw :
  typeNamesSuffix (opts self) = Some suffix ->
  getBlokTypeName imp self raw =
  removeSpaces (startCase imp (camelCase imp
    (default "" (typeNamesPrefix (opts self)) +:+ raw +:+ suffix))).
Proof. intros Hs. unfold getBlokTypeName, templateName. by rewrite Hs. Qed.

Lemma getBlokTypeName_deterministic self1 self2 raw :
  typeNamesPrefix (opts self1) = typeNamesPrefix (opts self2) ->
  typeNamesSuffix (opts self1) = typeNamesSuffix (opts self2) ->
  getBlokTypeName imp self1 raw = getBlokTypeName imp self2 raw.
Proof. intros Hp Hs. unfold getBlokTypeName, templateName. by rewrite Hp, Hs. Qed.

End Properties.

(** ** Worked examples *)

Example tab_keys_are_recognised :
  String.prefix "tab-" "tab-general" = true /\ String.prefix "tab-" "table" = false.
Proof. split; reflexivity. Qed.

Example option_enum :
  let option_ (exclude : option bool) :=
    {| type_ := "option"; required := None; source := None;
       options := Some [ {| opt_uid := "1"; opt_name := "A"; opt_value := "a" |};
                         {| opt_uid := "2"; opt_name := "B"; opt_value := "b" |} ];
       filter_content_type := None; restrict_components := None;
       component_whitelist := None; component_group_whitelist := None;
       restrict_type := None; exclude_empty_option := exclude;
       email_link_type := None; asset_link_type := None |} in
  a_enum (parseBlokSchemaProperty sampleImports sampleSelf (option_ (Some false))) =
    Some [""; "a"; "b"] /\
  a_enum (parseBlokSchemaProperty sampleImports sampleSelf (option_ (Some true))) =
    Some ["a"; "b"].
Proof. split; reflexivity. Qed.

Example type_names :
  getBlokTypeName sampleImports (new [] Sample.storyblok None) "hero_section" =
    "HeroSectionStoryblok" /\
  getBlokTypeName sampleImports sampleSelf "multilink" = "Multilink".
Proof. split; reflexivity. Qed.

Example run_teaser_grid :
  fst (run sampleImports [teaser; grid] Sample.bare None) =
  Ok (Some (String.concat (String (Ascii.ascii_of_nat 10) EmptyString)
              [ "import type { ISbStoryData } from " +:+ dq +:+ "storyblok" +:+ dq +:+ ";";
                "export interface asset {}";
                "export interface teaser {}";
                "export interface grid {}" ])).
Proof. vm_compute. reflexivity. Qed.

(** C1 on the run over "teaser" and "grid", which both have an "asset"
    field. *)
Lemma shared_kind_emitted_at_most_once_witness :
  generated (snd (run sampleImports [teaser; grid] Sample.bare None)) "asset" = true /\
  generateType sampleImports "asset" "Asset"
    (snd (run sampleImports [teaser; grid] Sample.bare None)) =
    (Ok None, snd (run sampleImports [teaser; grid] Sample.bare None)) /\
  (emittedFor "asset" (snd (run sampleImports [teaser; grid] Sample.bare None)) <= 1)%nat.
Proof.
  destruct (shared_kind_emitted_at_most_once sampleImports [teaser; grid] Sample.bare None
              "asset") as (Hemitted & _ & Hskip & _).
  split; [vm_compute; reflexivity|].
  split; [apply Hskip; vm_compute; reflexivity|exact Hemitted].
Defined.

(** C2, as stated, fails: a "bloks" field restricted by groups whose group
    list is missing gets no [tsType] at all, it stays the plain array
    instead of becoming [never[]]. *)
Lemma bloks_missing_whitelist_is_not_never :
  truthy (restrict_components restrictedWithoutList) = true /\
  restrictionList restrictedWithoutList = None /\
  resolvedAnnotation
    (typeMapperEntry sampleImports sampleSelf ∅ ("body", restrictedWithoutList) initialState)
    "body" = Some (annType (One "array")) /\
  a_tsType <$> resolvedAnnotation
    (typeMapperEntry sampleImports sampleSelf ∅ ("body", restrictedWithoutList) initialState)
    "body" <> Some (Some "never[]").
Proof.
  assert (resolvedAnnotation
            (typeMapperEntry sampleImports sampleSelf ∅ ("body", restrictedWithoutList)
               initialState) "body" = Some (annType (One "array"))) as H
    by (vm_compute; reflexivity).
  repeat split; try reflexivity; try exact H.
  rewrite H. simpl. discriminate.
Qed.

(** C2 on a field restricted to a group without members. *)
Lemma bloks_restricted_degenerate_witness :
  String.prefix "tab-" "body" = false /\
  "body" <> "__proto__" /\
  type_ restrictedToEmptyGroup = "bloks" /\
  truthy (restrict_components restrictedToEmptyGroup) = true /\
  exists element,
    typeMapperEntry sampleImports sampleSelf ∅ ("body", restrictedToEmptyGroup) initialState =
      (Ok (<["body" := Annotated element]> ∅), initialState) /\
    a_tsType element = Some "never[]".
Proof.
  destruct (bloks_restricted_degenerate sampleImports sampleSelf ∅ "body"
              restrictedToEmptyGroup initialState eq_refl ltac:(discriminate) eq_refl eq_refl)
    as (element & Hstep & Hnever & _).
  split; [reflexivity|]. split; [discriminate|]. do 2 (split; [reflexivity|]).
  exists element. split; [exact Hstep|].
  apply (Hnever ["nobody"]); reflexivity.
Defined.

(** C3 at a failing input.  The compiler rejects "teaser" and accepts
    "grid": what is printed is the word ERROR and the message of the
    compiler, the name of the component is not in it; the output of
    "teaser" is left out and "grid" is still processed. *)
Theorem rejected_component_report_lacks_name :
  console (snd (run (Sample.imports (rejectComponent "teaser" "unsupported construct"))
                  [teaser; grid] Sample.bare None)) =
    [ConsoleLog ["ERROR"; "unsupported construct"]] /\
  existsb (mentions "teaser")
    (console (snd (run (Sample.imports (rejectComponent "teaser" "unsupported construct"))
                     [teaser; grid] Sample.bare None))) = false /\
  map origin
    (typeDefsFileStrings
       (snd (run (Sample.imports (rejectComponent "teaser" "unsupported construct"))
               [teaser; grid] Sample.bare None))) =
    [ImportLine; SharedDefinition "asset"; ComponentDefinition "grid"].
Proof. repeat split; vm_compute; reflexivity. Qed.

(** C4 on the "items" field of "grid": "teaser", which has no group, and
    "grid" itself are both allowed. *)
Lemma bloks_unrestricted_all_components_witness :
  String.prefix "tab-" "items" = false /\
  "items" <> "__proto__" /\
  type_ (plainField "bloks") = "bloks" /\
  truthy (restrict_components (plainField "bloks")) = false /\
  exists element,
    typeMapperEntry sampleImports (new [teaser; grid] Sample.bare None) ∅
      ("items", plainField "bloks") initialState =
      (Ok (<["items" := Annotated element]> ∅), initialState) /\
    a_tsType element = Some "(Teaser | Grid)[]" /\
    "teaser" ∈ names (new [teaser; grid] Sample.bare None) /\
    "grid" ∈ names (new [teaser; grid] Sample.bare None).
Proof.
  destruct (bloks_unrestricted_all_components sampleImports [teaser; grid] Sample.bare None ∅
              "items" (plainField "bloks") initialState eq_refl ltac:(discriminate)
              eq_refl eq_refl)
    as (element & Hstep & Hts & _ & Hnames).
  split; [reflexivity|]. split; [discriminate|]. do 2 (split; [reflexivity|]).
  exists element. split; [exact Hstep|]. split; [exact Hts|].
  split; apply Hnames.
  - exists teaser. split; [apply elem_of_cons; auto|reflexivity].
  - exists grid. split; [apply elem_of_cons; right; apply elem_of_cons; auto|reflexivity].
Defined.


(** C6, as stated, fails twice.  With [source] "internal_stories" and an
    empty [filter_content_type] the rule is taken all the same, and yields
    the union of nothing and [string]; with a non-empty list on a field of a
    shared kind the rule is not taken. *)
Lemma internal_stories_rule_counterexample :
  parseBlokSchemaProperty sampleImports sampleSelf (storyOption "option" []) =
    annTsType "( | string )" /\
  parseBlokSchemaProperty sampleImports sampleSelf (storyOption "asset" ["page"]) =
    annType (One "asset").
Proof. split; reflexivity. Qed.

(** C6 on a multi-select field over two content types. *)
Lemma internal_stories_rule_witness :
  includes (autogeneratedPropertyTypes sampleImports)
    (type_ (storyOption "options" ["page"; "blog_post"])) = false /\
  source (storyOption "options" ["page"; "blog_post"]) = Some "internal_stories" /\
  filter_content_type (storyOption "options" ["page"; "blog_post"]) =
    Some ["page"; "blog_post"] /\
  parseBlokSchemaProperty sampleImports sampleSelf (storyOption "options" ["page"; "blog_post"]) =
    annTsType "(ISbStoryData<Page> | ISbStoryData<BlogPost> | string )[]" /\
  source (storyOption "option" []) = Some "internal_stories".
Proof.
  destruct (internal_stories_rule sampleImports sampleSelf
              (storyOption "options" ["page"; "blog_post"])) as (Happlies & _).
  destruct (internal_stories_rule sampleImports sampleSelf (storyOption "option" []))
    as (_ & Honly).
  do 3 (split; [reflexivity|]). split.
  - exact (Happlies ["page"; "blog_post"] eq_refl eq_refl eq_refl).
  - apply Honly. discriminate.
Defined.

(** C7 with a compiler whose first call fails: the "image" field of
    "teaser" keeps its reference, and the "cover" field of "grid" has the
    kind compiled again. *)
Lemma shared_render_failure_is_retried_witness :
  String.prefix "tab-" "image" = false /\
  "image" <> "__proto__" /\
  mapGet (getAutogeneratedTypeSchema (Sample.imports failFirst)) (type_ (plainField "asset")) =
    Some (Sample.stub "asset") /\
  generated initialState (type_ (plainField "asset")) = false /\
  compile (Sample.imports failFirst) (length (compileCalls initialState))
    (SharedInput (Sample.stub "asset" "Asset")) "asset" = Throw "out of memory" /\
  exists element st',
    typeMapperEntry (Sample.imports failFirst) sampleSelf ∅ ("image", plainField "asset")
      initialState = (Ok (<["image" := Annotated element]> ∅), st') /\
    a_tsType element = Some "Asset" /\
    generated st' "asset" = false /\
    length (compileCalls
              (snd (typeMapperEntry (Sample.imports failFirst) sampleSelf ∅
                      ("cover", plainField "asset") st'))) =
    S (length (compileCalls st')).
Proof.
  destruct (shared_render_failure_is_retried (Sample.imports failFirst) sampleSelf ∅ "image"
              (plainField "asset") initialState (Sample.stub "asset") "out of memory"
              eq_refl ltac:(discriminate) eq_refl eq_refl eq_refl eq_refl)
    as (element & st' & Hstep & _ & Hts & _ & Hflag & Hretry).
  split; [reflexivity|]. split; [discriminate|]. do 3 (split; [reflexivity|]).
  exists element, st'.
  split; [exact Hstep|]. split; [exact Hts|]. split; [exact Hflag|].
  rewrite (Hretry ∅ "cover" (plainField "asset") eq_refl eq_refl).
  rewrite length_app. simpl. lia.
Defined.

(** C8 at a failing input.  An absent prefix counts as the empty string, an
    absent suffix is printed into the name as the text "undefined": with
    neither configured, "teaser" becomes "Teaserundefined". *)
Theorem absent_suffix_is_printed_as_undefined :
  (forall imp schemas prefix path parser raw,
      getBlokTypeName imp
        (new schemas {| typeNamesPrefix := prefix; typeNamesSuffix := None;
                        destinationFilePath := path |} parser) raw =
      removeSpaces (startCase imp (camelCase imp (default "" prefix +:+ raw +:+ "undefined")))) /\
  getBlokTypeName sampleImports (new [teaser; grid] noSuffix None) "teaser" = "Teaserundefined".
Proof. split; reflexivity. Qed.

(** C9 on the "accent" field of "banner", without and with a parser. *)
Lemma custom_field_is_substituted_witness :
  String.prefix "tab-" "accent" = false /\
  type_ customField = "custom" /\
  typeMapperEntry sampleImports (new [banner] Sample.bare None) ∅ ("accent", customField)
    initialState = (Ok ∅, initialState) /\
  typeMapperEntry sampleImports (new [banner] Sample.bare (Some colorParser)) ∅
    ("accent", customField) initialState =
    (Ok ({[ "color" := Foreign (JObj [("type", JStr "string")]) ]} ∪ ∅), initialState) /\
  "accent" ∈ obj_required (componentObject sampleImports (new [banner] Sample.bare None) banner ∅).
Proof.
  destruct (custom_field_is_substituted sampleImports (new [banner] Sample.bare None) banner ∅
              "accent" customField initialState eq_refl eq_refl) as (Hnone & _ & Hreq).
  destruct (custom_field_is_substituted sampleImports (new [banner] Sample.bare (Some colorParser))
              banner ∅ "accent" customField initialState eq_refl eq_refl) as (_ & Hsome & _).
  do 2 (split; [reflexivity|]). split; [|split].
  - apply Hnone. reflexivity.
  - apply (Hsome colorParser); reflexivity.
  - apply Hreq. right. right. exists customField. split; [|reflexivity].
    apply elem_of_cons. by left.
Defined.

(** C10 on "banner", whose schema declares fields named [_uid] and
    [component] itself. *)
Lemma system_fields_overwrite_witness :
  exists properties st1,
    typeMapper sampleImports (new [banner] Sample.bare None) (schema banner) initialState =
      (Ok properties, st1) /\
    properties !! "_uid" = Some (Annotated (annType (One "boolean"))) /\
    exists obj result,
      compileCalls (snd (generateComponent sampleImports (new [banner] Sample.bare None) banner
                           initialState)) =
        compileCalls st1 ++
        [ {| call_input := ComponentInput obj; call_name := "banner"; call_result := result |} ] /\
      obj_properties obj !! "_uid" = Some (Annotated (annType (One "string"))) /\
      obj_properties obj !! "component" =
        Some (Annotated {| a_type := Some (One "string"); a_enum := Some ["banner"];
                           a_items := None; a_tsType := None |}).
Proof.
  eexists. eexists. split; [reflexivity|]. split; [vm_compute; reflexivity|].
  edestruct (system_fields_overwrite sampleImports (new [banner] Sample.bare None) banner
               initialState) as (obj & result & Hcalls & Huid & Hcomponent & _);
    [reflexivity|].
  exists obj, result. split; [exact Hcalls|]. split; [exact Huid|exact Hcomponent].
Defined.

(** * Further properties of the generator *)

Section Coverage.

Variable imp : Imports.

(** ** One iteration of [#typeMapper], in general *)

Lemma typeMapperEntry_tab self parseObj schemaKey d st :
  String.prefix "tab-" schemaKey = true ->
  typeMapperEntry imp self parseObj (schemaKey, d) st = (Ok parseObj, st).
Proof. intros Hkey. unfold typeMapperEntry. by rewrite Hkey. Qed.

Lemma fieldAnnotation_shared self d :
  includes (autogeneratedPropertyTypes imp) (type_ d) = true ->
  fieldAnnotation imp self d =
  if String.eqb (type_ d) "multilink"
  then setTsType (multilinkTsType imp self d) (annType (One (type_ d)))
  else setTsType (getBlokTypeName imp self (type_ d)) (annType (One (type_ d))).
Proof.
  intros Hshared. unfold fieldAnnotation, parseBlokSchemaProperty. rewrite Hshared.
  destruct (shared_kinds imp _ Hshared) as [Hty|[Hty|[Hty|[Hty|Hty]]]]; rewrite !Hty;
    reflexivity.
Qed.

(** For a field that is neither a tab marker nor custom, the annotation
    stored does not depend on the state; only a field of a shared kind
    touches the state. *)
Lemma typeMapperEntry_field self parseObj schemaKey d st :
  skipped schemaKey d = false ->
  typeMapperEntry imp self parseObj (schemaKey, d) st =
  (Ok (assignOwn parseObj schemaKey (Annotated (fieldAnnotation imp self d))),
   if includes (autogeneratedPropertyTypes imp) (type_ d)
   then snd (sharedStep imp (type_ d) (getBlokTypeName imp self (type_ d)) st)
   else st).
Proof.
  intros Hskip. apply orb_false_elim in Hskip as [Hkey Hcustom].
  destruct (includes (autogeneratedPropertyTypes imp) (type_ d)) eqn:Hshared.
  - rewrite typeMapperEntry_shared by assumption.
    by rewrite fieldAnnotation_shared.
  - unfold typeMapperEntry, fieldAnnotation. rewrite Hkey, Hcustom, Hshared. reflexivity.
Qed.

Lemma typeMapperEntry_custom_state self parseObj schemaKey d st :
  String.eqb (type_ d) "custom" = true ->
  snd (typeMapperEntry imp self parseObj (schemaKey, d) st) = st.
Proof.
  intros Hcustom. unfold typeMapperEntry.
  destruct (String.prefix "tab-" schemaKey); [reflexivity|]. rewrite Hcustom.
  destruct (customTypeParser self) as [parser|]; [|reflexivity].
  unfold bind, liftResult, ret. by destruct (parser schemaKey d).
Qed.

(** ** Properties kept by every step of a run *)

Section Preservation.

Variable self : Instance.
Variable P : State -> Prop.
Variable allowed : string -> Prop.

Hypothesis P_shared : forall typeName st,
  allowed typeName -> P st ->
  P (snd (sharedStep imp typeName (getBlokTypeName imp self typeName) st)).

Hypothesis P_component : forall obj name_ st,
  P st ->
  P (snd (tryCatch
            (bind (callCompile imp (ComponentInput obj) name_)
               (fun ts => pushTypeDef {| origin := ComponentDefinition name_; text := ts |}))
            (fun e => print (ConsoleLog ["ERROR"; e])) st)).

Lemma typeMapperEntry_preserves parseObj schemaKey d st :
  (skipped schemaKey d = false -> allowed (type_ d)) ->
  P st -> P (snd (typeMapperEntry imp self parseObj (schemaKey, d) st)).
Proof.
  intros Hallowed HP. destruct (skipped schemaKey d) eqn:Hskip.
  - apply orb_true_elim in Hskip as [Hkey|Hcustom].
    + by rewrite typeMapperEntry_tab.
    + by rewrite typeMapperEntry_custom_state.
  - rewrite typeMapperEntry_field by assumption. cbn [snd].
    destruct (includes (autogeneratedPropertyTypes imp) (type_ d)); [|exact HP].
    apply P_shared; auto.
Qed.

Lemma typeMapperLoop_preserves entries : forall parseObj st,
  (forall k d, (k, d) ∈ entries -> skipped k d = false -> allowed (type_ d)) ->
  P st -> P (snd (typeMapperLoop imp self entries parseObj st)).
Proof.
  induction entries as [|[k d] rest IH]; intros parseObj st Hallowed HP; simpl; [exact HP|].
  apply bind_inv.
  - apply typeMapperEntry_preserves; [|exact HP].
    apply Hallowed. apply elem_of_cons. by left.
  - intros parseObj' st' HP'. apply IH; [|exact HP'].
    intros k' d' Hin. apply Hallowed. apply elem_of_cons. by right.
Qed.

Lemma generateComponent_preserves component st :
  (forall k d, (k, d) ∈ schema component -> skipped k d = false -> allowed (type_ d)) ->
  P st -> P (snd (generateComponent imp self component st)).
Proof.
  intros Hallowed HP. unfold generateComponent. apply bind_inv.
  - by apply typeMapperLoop_preserves.
  - intros properties st' HP'. by apply P_component.
Qed.

Lemma generateComponents_preserves components : forall st,
  (forall c k d, c ∈ components -> (k, d) ∈ schema c -> skipped k d = false ->
                 allowed (type_ d)) ->
  P st -> P (snd (generateComponents imp self components st)).
Proof.
  induction components as [|c rest IH]; intros st Hallowed HP; simpl; [exact HP|].
  apply bind_inv.
  - apply generateComponent_preserves; [|exact HP].
    intros k d. apply Hallowed. apply elem_of_cons. by left.
  - intros [] st' HP'. apply IH; [|exact HP'].
    intros c' k d Hin. apply Hallowed. apply elem_of_cons. by right.
Qed.

Lemma generateTSFile_preserves st :
  (forall c k d, c ∈ componentsJSONSchemas self -> (k, d) ∈ schema c -> skipped k d = false ->
                 allowed (type_ d)) ->
  P st -> P (snd (generateTSFile imp self st)).
Proof.
  intros Hallowed HP. unfold generateTSFile. apply bind_inv.
  - by apply generateComponents_preserves.
  - intros [] st' HP'. by rewrite writeTypeDefs_state.
Qed.

End Preservation.

(** ** What the two effectful steps do to the state *)

Lemma sharedStep_cases typeName title st :
  snd (sharedStep imp typeName title st) = st \/
  (exists builder ts,
      mapGet (getAutogeneratedTypeSchema imp) typeName = Some builder /\
      jsTruthy (builder title) = true /\
      generated st typeName = false /\
      compile imp (length (compileCalls st)) (SharedInput (builder title)) typeName = Ok ts /\
      snd (sharedStep imp typeName title st) =
      {| typeDefsFileStrings :=
           if truthyStr (Some ts)
           then typeDefsFileStrings st ++ [ {| origin := SharedDefinition typeName; text := ts |} ]
           else typeDefsFileStrings st;
         hasTypeBeenGenerated := <[typeName := true]> (hasTypeBeenGenerated st);
         console := console st;
         compileCalls :=
           compileCalls st ++
           [ {| call_input := SharedInput (builder title); call_name := typeName;
                call_result := Ok ts |} ] |}) \/
  (exists builder e,
      mapGet (getAutogeneratedTypeSchema imp) typeName = Some builder /\
      jsTruthy (builder title) = true /\
      generated st typeName = false /\
      compile imp (length (compileCalls st)) (SharedInput (builder title)) typeName = Throw e /\
      snd (sharedStep imp typeName title st) =
      {| typeDefsFileStrings := typeDefsFileStrings st;
         hasTypeBeenGenerated := hasTypeBeenGenerated st;
         console :=
           console st ++
           [ConsoleError ["Error generating type " +:+ typeName +:+ " with title " +:+ title; e]];
         compileCalls :=
           compileCalls st ++
           [ {| call_input := SharedInput (builder title); call_name := typeName;
                call_result := Throw e |} ] |}).
Proof.
  destruct (generated st typeName) eqn:Hflag.
  { left. unfold sharedStep, bind, generateType. fold (generated st typeName).
    by rewrite Hflag. }
  destruct (mapGet (getAutogeneratedTypeSchema imp) typeName) as [builder|] eqn:Hget.
  2:{ left. unfold sharedStep, bind, generateType. fold (generated st typeName).
      rewrite Hflag. simpl. unfold generateAutogeneratedType, tryCatch. by rewrite Hget. }
  destruct (jsTruthy (builder title)) eqn:Htruthy.
  2:{ left. unfold sharedStep, bind, generateType. fold (generated st typeName).
      rewrite Hflag. simpl. unfold generateAutogeneratedType, tryCatch.
      by rewrite Hget, Htruthy. }
  destruct (compile imp (length (compileCalls st)) (SharedInput (builder title)) typeName)
    as [ts|e] eqn:Hc.
  - right. left. exists builder, ts. do 4 (split; [first [reflexivity|assumption]|]).
    unfold sharedStep, bind, generateType. fold (generated st typeName). rewrite Hflag. simpl.
    unfold generateAutogeneratedType, tryCatch. rewrite Hget, Htruthy.
    unfold generateTypeString, bind, callCompile, markGenerated, ret, print. simpl.
    rewrite Hc. simpl. by destruct ts.
  - right. right. exists builder, e. do 4 (split; [first [reflexivity|assumption]|]).
    by apply sharedStep_failed.
Qed.

Lemma componentStep_cases (obj : ComponentObject) name_ st :
  (exists ts,
      compile imp (length (compileCalls st)) (ComponentInput obj) name_ = Ok ts /\
      tryCatch
        (bind (callCompile imp (ComponentInput obj) name_)
           (fun ts => pushTypeDef {| origin := ComponentDefinition name_; text := ts |}))
        (fun e => print (ConsoleLog ["ERROR"; e])) st =
      (Ok tt,
       {| typeDefsFileStrings :=
            typeDefsFileStrings st ++ [ {| origin := ComponentDefinition name_; text := ts |} ];
          hasTypeBeenGenerated := hasTypeBeenGenerated st;
          console := console st;
          compileCalls :=
            compileCalls st ++
            [ {| call_input := ComponentInput obj; call_name := name_;
                 call_result := Ok ts |} ] |})) \/
  (exists e,
      compile imp (length (compileCalls st)) (ComponentInput obj) name_ = Throw e /\
      tryCatch
        (bind (callCompile imp (ComponentInput obj) name_)
           (fun ts => pushTypeDef {| origin := ComponentDefinition name_; text := ts |}))
        (fun e => print (ConsoleLog ["ERROR"; e])) st =
      (Ok tt,
       {| typeDefsFileStrings := typeDefsFileStrings st;
          hasTypeBeenGenerated := hasTypeBeenGenerated st;
          console := console st ++ [ConsoleLog ["ERROR"; e]];
          compileCalls :=
            compileCalls st ++
            [ {| call_input := ComponentInput obj; call_name := name_;
                 call_result := Throw e |} ] |})).
Proof.
  unfold tryCatch, bind, callCompile, pushTypeDef, print.
  destruct (compile imp (length (compileCalls st)) (ComponentInput obj) name_) as [ts|e] eqn:Hc.
  - left. exists ts. split; reflexivity.
  - right. exists e. split; reflexivity.
Qed.

Ltac shared_cases typeName title st :=
  destruct (sharedStep_cases typeName title st)
    as [->|[(?builder & ?ts & ?Hget & ?Htruthy & ?Hflag & ?Hc & ->)
           |(?builder & ?e & ?Hget & ?Htruthy & ?Hflag & ?Hc & ->)]].

Ltac component_cases obj name_ st :=
  destruct (componentStep_cases obj name_ st) as [(?ts & ?Hc & ->)|(?e & ?Hc & ->)].

(** ** Exceptions *)

Lemma typeMapperLoop_cons self entry rest parseObj st :
  typeMapperLoop imp self (entry :: rest) parseObj st =
  match typeMapperEntry imp self parseObj entry st with
  | (Ok parseObj', st') => typeMapperLoop imp self rest parseObj' st'
  | (Throw e, st') => (Throw e, st')
  end.
Proof. reflexivity. Qed.

Lemma generateComponents_cons self component rest st :
  generateComponents imp self (component :: rest) st =
  match generateComponent imp self component st with
  | (Ok _, st') => generateComponents imp self rest st'
  | (Throw e, st') => (Throw e, st')
  end.
Proof. reflexivity. Qed.

Lemma generateComponent_unfold self component st :
  generateComponent imp self component st =
  match typeMapperLoop imp self (schema component) ∅ st with
  | (Ok properties, st') =>
      tryCatch
        (bind (callCompile imp (ComponentInput (componentObject imp self component properties))
                 (name component))
           (fun ts =>
              pushTypeDef {| origin := ComponentDefinition (name component); text := ts |}))
        (fun e => print (ConsoleLog ["ERROR"; e])) st'
  | (Throw e, st') => (Throw e, st')
  end.
Proof. reflexivity. Qed.

Lemma typeMapperEntry_returns self parseObj schemaKey d st :
  parserNeverThrows self ->
  exists parseObj', fst (typeMapperEntry imp self parseObj (schemaKey, d) st) = Ok parseObj'.
Proof.
  intros Hparser. destruct (skipped schemaKey d) eqn:Hskip.
  - destruct (String.prefix "tab-" schemaKey) eqn:Hkey.
    + rewrite typeMapperEntry_tab by assumption. eauto.
    + unfold skipped in Hskip. rewrite Hkey in Hskip. simpl in Hskip.
      unfold typeMapperEntry. rewrite Hkey, Hskip.
      unfold parserNeverThrows in Hparser.
      destruct (customTypeParser self) as [parser|]; [|simpl; eauto].
      destruct (Hparser schemaKey d) as [fragment Hfragment].
      unfold bind, liftResult, ret. rewrite Hfragment. simpl. eauto.
  - rewrite typeMapperEntry_field by assumption. simpl. eauto.
Qed.

Lemma typeMapperLoop_returns self entries : forall parseObj st,
  parserNeverThrows self ->
  exists properties, fst (typeMapperLoop imp self entries parseObj st) = Ok properties.
Proof.
  induction entries as [|[k d] rest IH]; intros parseObj st Hparser; [simpl; eauto|].
  rewrite typeMapperLoop_cons.
  destruct (typeMapperEntry_returns self parseObj k d st Hparser) as [parseObj' Hentry].
  destruct (typeMapperEntry imp self parseObj (k, d) st) as [[a|e] st1]; simpl in Hentry;
    [|discriminate].
  by apply IH.
Qed.

Lemma generateComponent_returns self component st :
  parserNeverThrows self ->
  fst (generateComponent imp self component st) = Ok tt.
Proof.
  intros Hparser. rewrite generateComponent_unfold.
  destruct (typeMapperLoop_returns self (schema component) ∅ st Hparser) as [properties Hloop].
  destruct (typeMapperLoop imp self (schema component) ∅ st) as [[a|e] st1]; simpl in Hloop;
    [|discriminate].
  by component_cases (componentObject imp self component a) (name component) st1.
Qed.

Lemma generateComponents_returns self components : forall st,
  parserNeverThrows self ->
  fst (generateComponents imp self components st) = Ok tt.
Proof.
  induction components as [|c rest IH]; intros st Hparser; [reflexivity|].
  rewrite generateComponents_cons.
  pose proof (generateComponent_returns self c st Hparser) as Hc.
  destruct (generateComponent imp self c st) as [[[]|e] st1]; simpl in Hc; [|discriminate].
  by apply IH.
Qed.

Lemma generateTSFile_result self st :
  parserNeverThrows self ->
  fst (generateTSFile imp self st) =
  fst (writeTypeDefs imp self (snd (generateTSFile imp self st))).
Proof.
  intros Hparser. unfold generateTSFile, bind.
  pose proof (generateComponents_returns self (componentsJSONSchemas self) st Hparser) as Hrun.
  destruct (generateComponents imp self (componentsJSONSchemas self) st) as [[[]|e] st1];
    simpl in Hrun; [|discriminate].
  by rewrite writeTypeDefs_state.
Qed.

(** X1. Only the custom parser and [fs.writeFileSync] can make
    [generateTSFile] throw.  With no parser, or with one that returns for
    every field, the loop over the components ends whatever the compiler
    does, and the run ends as [#writeTypeDefs] does on the final buffer: it
    returns without writing when [destinationFilePath] is empty, returns
    when the write succeeds, and throws the error of the write
    otherwise. *)
Theorem run_throws_only_in_parser_or_write schemas o parser :
  parserNeverThrows (new schemas o parser) ->
  fst (run imp schemas o parser) =
  match textToWrite (new schemas o parser) (snd (run imp schemas o parser)) with
  | Some contents =>
      match writeFileSync imp (destinationFilePath o) contents with
      | Ok _ => Ok (Some contents)
      | Throw e => Throw e
      end
  | None => Ok None
  end.
Proof.
  intros Hparser. unfold run.
  rewrite (generateTSFile_result (new schemas o parser) initialState Hparser).
  unfold writeTypeDefs. simpl opts.
  destruct (textToWrite (new schemas o parser)
              (snd (generateTSFile imp (new schemas o parser) initialState)))
    as [contents|]; [|reflexivity].
  by destruct (writeFileSync imp (destinationFilePath o) contents).
Qed.

Lemma typeMapperLoop_throws self parser schemaKey d e entries : forall parseObj st,
  customTypeParser self = Some parser ->
  (schemaKey, d) ∈ entries ->
  String.prefix "tab-" schemaKey = false ->
  type_ d = "custom" ->
  parser schemaKey d = Throw e ->
  exists e', fst (typeMapperLoop imp self entries parseObj st) = Throw e'.
Proof.
  induction entries as [|[k' d'] rest IH]; intros parseObj st Hparser Hin Hkey Hty Hthrow.
  - by apply elem_of_nil in Hin.
  - rewrite typeMapperLoop_cons.
    destruct (typeMapperEntry imp self parseObj (k', d') st) as [[a|e0] st1] eqn:Hentry;
      [|simpl; eauto].
    apply elem_of_cons in Hin as [Heq|Hin]; [|by eapply IH].
    inversion Heq; subst k' d'. exfalso. revert Hentry.
    unfold typeMapperEntry. rewrite Hkey, Hty, Hparser. simpl.
    unfold bind, liftResult. rewrite Hthrow. discriminate.
Qed.

(** X2. A parser that throws on a custom field aborts the whole run: no
    catch surrounds the call, so [generateTSFile] throws and
    [#writeTypeDefs] is not reached. *)
Theorem throwing_parser_aborts_run schemas o parser component schemaKey d e :
  component ∈ schemas ->
  (schemaKey, d) ∈ schema component ->
  String.prefix "tab-" schemaKey = false ->
  type_ d = "custom" ->
  parser schemaKey d = Throw e ->
  exists e', fst (run imp schemas o (Some parser)) = Throw e'.
Proof.
  intros Hcomp Hin Hkey Hty Hthrow. unfold run, generateTSFile.
  simpl componentsJSONSchemas.
  assert (forall components st,
             component ∈ components ->
             exists e', fst (generateComponents imp (new schemas o (Some parser)) components st)
                        = Throw e') as Hloop.
  { induction components as [|c rest IH]; intros st Hc; [by apply elem_of_nil in Hc|].
    rewrite generateComponents_cons.
    destruct (generateComponent imp (new schemas o (Some parser)) c st) as [[[]|e0] st1] eqn:Hgen;
      [|simpl; eauto].
    apply elem_of_cons in Hc as [->|Hc]; [|by apply IH].
    exfalso. revert Hgen. rewrite generateComponent_unfold.
    destruct (typeMapperLoop_throws (new schemas o (Some parser)) parser schemaKey d e
                (schema c) ∅ st eq_refl Hin Hkey Hty Hthrow) as [e' He'].
    destruct (typeMapperLoop imp (new schemas o (Some parser)) (schema c) ∅ st)
      as [[a|e1] st2]; simpl in He'; [discriminate|]. discriminate. }
  destruct (Hloop schemas initialState Hcomp) as [e' He']. exists e'.
  unfold bind.
  destruct (generateComponents imp (new schemas o (Some parser)) schemas initialState)
    as [[[]|e1] st1]; simpl in He'; [discriminate|]. simpl. congruence.
Qed.

(** ** Diagnostics *)

Lemma omap_snoc {A B} (f : A -> option B) (l : list A) (x : A) :
  omap f (l ++ [x]) = omap f l ++ match f x with Some y => [y] | None => [] end.
Proof. rewrite omap_app. simpl. by destruct (f x). Qed.

(** X3. The console holds, in order, one line for each call of the compiler
    that failed, and nothing else: the word ERROR and the error for a
    component, the kind, its title and the error for a shared kind. *)
Theorem console_lists_failed_calls schemas o parser :
  console (snd (run imp schemas o parser)) =
  omap (report imp (new schemas o parser)) (compileCalls (snd (run imp schemas o parser))).
Proof.
  apply (generateTSFile_preserves (new schemas o parser)
           (fun st => console st = omap (report imp (new schemas o parser)) (compileCalls st))
           (fun _ => True)); auto.
  - intros typeName st _ HP.
    shared_cases typeName (getBlokTypeName imp (new schemas o parser) typeName) st;
      simpl; rewrite ?omap_snoc; simpl; rewrite ?app_nil_r; congruence.
  - intros obj name_ st HP.
    component_cases obj name_ st; simpl; rewrite ?omap_snoc; simpl; rewrite ?app_nil_r;
      congruence.
Qed.

(** ** The output buffer *)

(** X4. The output buffer is the import line followed, in the order of the
    calls, by what the compiler returned: the text of every component it
    accepted and the non-empty text of every shared kind it accepted.
    [#writeTypeDefs] joins these with line feeds, and has nothing to write
    when [destinationFilePath] is empty. *)
Theorem output_is_what_the_compiler_returned schemas o parser :
  typeDefsFileStrings (snd (run imp schemas o parser)) =
    importEntry :: omap emission (compileCalls (snd (run imp schemas o parser))) /\
  textToWrite (new schemas o parser) (snd (run imp schemas o parser)) =
    if String.eqb (destinationFilePath o) "" then None
    else Some (String.concat nl
                 (map text (importEntry ::
                            omap emission (compileCalls (snd (run imp schemas o parser)))))).
Proof.
  assert (typeDefsFileStrings (snd (run imp schemas o parser)) =
          importEntry :: omap emission (compileCalls (snd (run imp schemas o parser)))) as Hout.
  { apply (generateTSFile_preserves (new schemas o parser)
             (fun st => typeDefsFileStrings st = importEntry :: omap emission (compileCalls st))
             (fun _ => True)); auto.
    - intros typeName st _ HP.
      shared_cases typeName (getBlokTypeName imp (new schemas o parser) typeName) st;
        try assumption; cbn [typeDefsFileStrings compileCalls]; rewrite omap_snoc, HP;
        unfold emission; cbn [call_result call_input call_name]; [|by rewrite app_nil_r].
      destruct (truthyStr (Some ts)); [reflexivity|by rewrite app_nil_r].
    - intros obj name_ st HP.
      component_cases obj name_ st; cbn [typeDefsFileStrings compileCalls snd];
        rewrite omap_snoc, HP; unfold emission; cbn [call_result call_input call_name];
        [reflexivity|by rewrite app_nil_r]. }
  split; [exact Hout|].
  unfold textToWrite. simpl. rewrite Hout.
  by destruct (String.eqb (destinationFilePath o) "").
Qed.

(** X6. Every call of the compiler for a shared schema is for one of the
    five shared kinds, under the name of the kind, with the schema the
    builder of that kind returns for the formatted name of the kind. *)
Theorem shared_calls_use_the_builder schemas o parser :
  Forall
    (fun c =>
       isSharedCall c = true ->
       exists builder,
         mapGet (getAutogeneratedTypeSchema imp) (call_name c) = Some builder /\
         call_input c =
           SharedInput (builder (getBlokTypeName imp (new schemas o parser) (call_name c))))
    (compileCalls (snd (run imp schemas o parser))).
Proof.
  apply (generateTSFile_preserves (new schemas o parser)
           (fun st =>
              Forall
                (fun c =>
                   isSharedCall c = true ->
                   exists builder,
                     mapGet (getAutogeneratedTypeSchema imp) (call_name c) = Some builder /\
                     call_input c =
                       SharedInput
                         (builder (getBlokTypeName imp (new schemas o parser) (call_name c))))
                (compileCalls st))
           (fun _ => True)); auto.
  - intros typeName st _ HP.
    shared_cases typeName (getBlokTypeName imp (new schemas o parser) typeName) st;
      try assumption; cbn [compileCalls]; apply Forall_app; (split; [assumption|]);
      repeat constructor; intros _; exists builder; by split.
  - intros obj name_ st HP.
    component_cases obj name_ st; cbn [compileCalls snd]; apply Forall_app;
      (split; [assumption|]); repeat constructor; discriminate.
Qed.

Lemma typeMapperLoop_compiledComponents self entries parseObj st :
  compiledComponents (snd (typeMapperLoop imp self entries parseObj st)) = compiledComponents st.
Proof.
  apply (typeMapperLoop_preserves self
           (fun st' => compiledComponents st' = compiledComponents st) (fun _ => True));
    auto.
  intros typeName st' _ HP. unfold compiledComponents in *.
  shared_cases typeName (getBlokTypeName imp self typeName) st';
    simpl; rewrite ?filter_snoc; simpl; rewrite ?app_nil_r; assumption.
Qed.

Lemma generateComponent_compiledComponents self component st :
  parserNeverThrows self ->
  compiledComponents (snd (generateComponent imp self component st)) =
  compiledComponents st ++ [name component].
Proof.
  intros Hparser. rewrite generateComponent_unfold.
  destruct (typeMapperLoop_returns self (schema component) ∅ st Hparser) as [properties Hloop].
  pose proof (typeMapperLoop_compiledComponents self (schema component) ∅ st) as Hsame.
  destruct (typeMapperLoop imp self (schema component) ∅ st) as [[a|e] st1]; simpl in Hloop;
    [|discriminate].
  simpl in Hsame. rewrite <- Hsame. unfold compiledComponents.
  component_cases (componentObject imp self component a) (name component) st1;
    simpl; rewrite filter_snoc; simpl; by rewrite map_app.
Qed.

(** X5. With no parser, or one that never throws, the compiler is called
    for every component exactly once, in the order of the input, whether
    earlier calls failed or not. *)
Theorem every_component_is_compiled_once schemas o parser :
  parserNeverThrows (new schemas o parser) ->
  compiledComponents (snd (run imp schemas o parser)) = map name schemas.
Proof.
  intros Hparser.
  assert (forall components st,
             compiledComponents
               (snd (generateComponents imp (new schemas o parser) components st)) =
             compiledComponents st ++ map name components) as Hloop.
  { induction components as [|c rest IH]; intros st; [simpl; by rewrite app_nil_r|].
    rewrite generateComponents_cons.
    pose proof (generateComponent_returns (new schemas o parser) c st Hparser) as Hok.
    pose proof (generateComponent_compiledComponents (new schemas o parser) c st Hparser)
      as Hcalls.
    destruct (generateComponent imp (new schemas o parser) c st) as [[[]|e] st1];
      simpl in Hok; [|discriminate].
    rewrite IH. simpl in Hcalls. rewrite Hcalls. by rewrite <- app_assoc. }
  unfold run, generateTSFile, bind. simpl componentsJSONSchemas.
  specialize (Hloop schemas initialState).
  destruct (generateComponents imp (new schemas o parser) schemas initialState)
    as [[[]|e] st1]; rewrite ?writeTypeDefs_state; exact Hloop.
Qed.

(** ** The registry *)

Lemma initialRegistry_keys k :
  is_Some (initialRegistry !! k) <-> includes (autogeneratedPropertyTypes imp) k = true.
Proof.
  rewrite includes_elem_of. unfold initialRegistry. cbn [autogeneratedPropertyTypes
    getAutogeneratedTypeSchema map fst].
  rewrite !lookup_insert_is_Some, lookup_empty, !elem_of_cons, elem_of_nil.
  split.
  - intros [->|[_ [->|[_ [->|[_ [->|[_ [->|[_ H]]]]]]]]]]; try tauto.
    by destruct H.
  - intros H.
    destruct (decide ("table" = k)); [by left|right; split; [assumption|]].
    destruct (decide ("richtext" = k)); [by left|right; split; [assumption|]].
    destruct (decide ("multilink" = k)); [by left|right; split; [assumption|]].
    destruct (decide ("multiasset" = k)); [by left|right; split; [assumption|]].
    destruct (decide ("asset" = k)); [by left|right; split; [assumption|]].
    exfalso. destruct H as [->|[->|[->|[->|[->|[]]]]]]; congruence.
Qed.

(** X7. The registry keeps the keys it starts with: at the end of every run
    it has an entry for each of the five shared kinds and for nothing
    else. *)
Theorem registry_keys_are_the_shared_kinds schemas o parser k :
  is_Some (hasTypeBeenGenerated (snd (run imp schemas o parser)) !! k) <->
  includes (autogeneratedPropertyTypes imp) k = true.
Proof.
  revert k.
  apply (generateTSFile_preserves (new schemas o parser)
           (fun st => forall k, is_Some (hasTypeBeenGenerated st !! k) <->
                                includes (autogeneratedPropertyTypes imp) k = true)
           (fun _ => True)); auto.
  - intros typeName st _ HP k.
    shared_cases typeName (getBlokTypeName imp (new schemas o parser) typeName) st;
      simpl; try apply HP.
    rewrite lookup_insert_is_Some. split.
    + intros [<-|[_ H]]; [|by apply HP].
      exact (mapGet_includes _ _ _ Hget).
    + intros H. destruct (decide (typeName = k)); [by left|right]. split; [assumption|].
      by apply HP.
  - intros obj name_ st HP k. component_cases obj name_ st; simpl; apply HP.
  - intros k. apply initialRegistry_keys.
Qed.

Lemma registryAgrees_shared typeName title st :
  registryAgrees st -> registryAgrees (snd (sharedStep imp typeName title st)).
Proof.
  intros [Hinv Htrue].
  shared_cases typeName title st.
  - by split.
  - split; [exact (inv_rendered st _ typeName ts (truthyStr (Some ts)) Hinv Hflag)|].
    intros kind. destruct (Hinv kind) as (_ & _ & Hzero). specialize (Htrue kind).
    unfold generated, rendersOf in *. simpl. rewrite length_filter_snoc.
    unfold isRender at 2. simpl.
    destruct (String.eqb_spec typeName kind) as [->|Hne].
    + intros _. rewrite (Hzero Hflag). reflexivity.
    + rewrite lookup_insert_ne by assumption. intros Hk. rewrite (Htrue Hk). lia.
  - split; [by apply inv_failed|].
    intros kind. specialize (Htrue kind).
    unfold generated, rendersOf in *. simpl. rewrite length_filter_snoc.
    unfold isRender at 2. simpl. intros Hk. rewrite (Htrue Hk). lia.
Qed.

Lemma registryAgrees_component (obj : ComponentObject) name_ st :
  registryAgrees st ->
  registryAgrees
    (snd (tryCatch
            (bind (callCompile imp (ComponentInput obj) name_)
               (fun ts => pushTypeDef {| origin := ComponentDefinition name_; text := ts |}))
            (fun e => print (ConsoleLog ["ERROR"; e])) st)).
Proof.
  intros [Hinv Htrue]. component_cases obj name_ st; split.
  - apply (inv_component_push
             {| typeDefsFileStrings := typeDefsFileStrings st;
                hasTypeBeenGenerated := hasTypeBeenGenerated st;
                console := console st;
                compileCalls := _ |}).
    by apply inv_component_call.
  - intros kind. specialize (Htrue kind).
    unfold generated, rendersOf in *. simpl. rewrite length_filter_snoc.
    unfold isRender at 2. simpl. intros Hk. rewrite (Htrue Hk). lia.
  - apply (inv_print
             {| typeDefsFileStrings := typeDefsFileStrings st;
                hasTypeBeenGenerated := hasTypeBeenGenerated st;
                console := console st;
                compileCalls := _ |}).
    by apply inv_component_call.
  - intros kind. specialize (Htrue kind).
    unfold generated, rendersOf in *. simpl. rewrite length_filter_snoc.
    unfold isRender at 2. simpl. intros Hk. rewrite (Htrue Hk). lia.
Qed.

Lemma run_registryAgrees schemas o parser : registryAgrees (snd (run imp schemas o parser)).
Proof.
  apply (generateTSFile_preserves (new schemas o parser) registryAgrees (fun _ => True)); auto.
  - intros typeName st _. apply registryAgrees_shared.
  - apply registryAgrees_component.
  - split; [apply initialState_inv|]. intros kind Hk. exfalso.
    unfold generated in Hk. cbn [hasTypeBeenGenerated initialState] in Hk.
    destruct (initialRegistry !! kind) as [[]|] eqn:Hlook; try discriminate.
    unfold initialRegistry in Hlook.
    repeat (apply lookup_insert_Some in Hlook as [[_ Hlook]|[_ Hlook]]; [discriminate|]).
    by rewrite lookup_empty in Hlook.
Qed.

(** X8. At the end of a run the registry entry of a kind is true exactly
    when the kind was compiled with success, which then happened once; a
    kind whose definition is in the output has its entry true. *)
Theorem registry_records_successful_renders schemas o parser kind :
  (generated (snd (run imp schemas o parser)) kind = true <->
   rendersOf kind (snd (run imp schemas o parser)) = 1%nat) /\
  (generated (snd (run imp schemas o parser)) kind = false <->
   rendersOf kind (snd (run imp schemas o parser)) = 0%nat) /\
  (emittedFor kind (snd (run imp schemas o parser)) = 1%nat ->
   generated (snd (run imp schemas o parser)) kind = true).
Proof.
  destruct (run_registryAgrees schemas o parser) as [Hinv Htrue].
  destruct (Hinv kind) as (Hle & Hone & Hzero). specialize (Htrue kind).
  destruct (generated (snd (run imp schemas o parser)) kind).
  - specialize (Htrue eq_refl). repeat split; intros; auto; try lia; try discriminate.
  - specialize (Hzero eq_refl). repeat split; intros; auto; try lia; try discriminate.
Qed.

Lemma registry_zero schemas o parser kind :
  generated (snd (run imp schemas o parser)) kind = false <->
  rendersOf kind (snd (run imp schemas o parser)) = 0%nat.
Proof.
  destruct (run_registryAgrees schemas o parser) as [Hinv Htrue].
  destruct (Hinv kind) as (_ & _ & Hzero). specialize (Htrue kind).
  destruct (generated (snd (run imp schemas o parser)) kind).
  - specialize (Htrue eq_refl). split; [discriminate|lia].
  - specialize (Hzero eq_refl). by split.
Qed.

(** X9. A shared kind that no field of the run carries (tab markers aside)
    is never handed to the compiler: nothing is emitted for it and its
    registry entry is still false at the end. *)
Theorem unused_shared_kind_is_never_compiled schemas o parser kind :
  (forall component schemaKey d,
      component ∈ schemas -> (schemaKey, d) ∈ schema component ->
      String.prefix "tab-" schemaKey = false -> type_ d <> kind) ->
  Forall (fun c => isSharedCall c = true -> call_name c <> kind)
    (compileCalls (snd (run imp schemas o parser))) /\
  emittedFor kind (snd (run imp schemas o parser)) = 0%nat /\
  generated (snd (run imp schemas o parser)) kind = false.
Proof.
  intros Hunused.
  assert (Forall (fun c => isSharedCall c = true -> call_name c <> kind)
            (compileCalls (snd (run imp schemas o parser)))) as Hcalls.
  { apply (generateTSFile_preserves (new schemas o parser)
             (fun st => Forall (fun c => isSharedCall c = true -> call_name c <> kind)
                          (compileCalls st))
             (fun typeName => typeName <> kind)).
    - intros typeName st Hne HP.
      shared_cases typeName (getBlokTypeName imp (new schemas o parser) typeName) st;
        simpl; try assumption; apply Forall_app; (split; [assumption|]);
        by repeat constructor.
    - intros obj name_ st HP.
      component_cases obj name_ st; simpl; apply Forall_app; (split; [assumption|]);
        repeat constructor; simpl; discriminate.
    - intros c k d Hc Hin Hskip. apply orb_false_elim in Hskip as [Hkey _].
      by apply (Hunused c k d).
    - constructor. }
  assert (rendersOf kind (snd (run imp schemas o parser)) = 0%nat) as Hzero.
  { unfold rendersOf. revert Hcalls.
    generalize (compileCalls (snd (run imp schemas o parser))).
    induction l as [|c l IH]; intros Hall; [reflexivity|].
    apply Forall_cons in Hall as [Hc Hl]. simpl.
    destruct (isRender kind c) eqn:Hrender; [|by apply IH].
    exfalso. unfold isRender in Hrender. unfold isSharedCall, isComponentCall in Hc.
    destruct (call_input c); [discriminate|]. destruct (call_result c); [|discriminate].
    apply String.eqb_eq in Hrender. by apply Hc. }
  split; [exact Hcalls|].
  destruct (run_inv imp schemas o parser kind) as (Hle & _ & _).
  destruct (registry_zero schemas o parser kind) as [_ Hfalse].
  split; [lia|by apply Hfalse].
Qed.

(** ** A compiler that accepts the shared schemas *)

Section AcceptingCompiler.

Hypothesis compile_accepts : forall n schema_ name_,
  exists c r, compile imp n (SharedInput schema_) name_ = Ok (String c r).

Lemma sharedStep_marks kind title builder st :
  mapGet (getAutogeneratedTypeSchema imp) kind = Some builder ->
  jsTruthy (builder title) = true ->
  generated (snd (sharedStep imp kind title st)) kind = true.
Proof.
  intros Hget Htruthy. destruct (generated st kind) eqn:Hflag.
  - shared_cases kind title st; try assumption; congruence.
  - pose proof (compileCalls_sharedStep imp kind title builder st Hget Htruthy Hflag) as Hcalls.
    destruct (sharedStep_cases kind title st)
      as [Heq|[(b & ts & _ & _ & _ & _ & Heq)|(b & e & _ & _ & _ & Hc & Heq)]].
    + exfalso. rewrite Heq in Hcalls. apply (f_equal length) in Hcalls.
      rewrite length_app in Hcalls. simpl in Hcalls. lia.
    + rewrite Heq. unfold generated. simpl. by rewrite lookup_insert_eq.
    + destruct (compile_accepts (length (compileCalls st)) (b title) kind)
        as (c & r & Hok). congruence.
Qed.

Lemma typeMapperLoop_marks self kind builder schemaKey d entries : forall parseObj st,
  parserNeverThrows self ->
  mapGet (getAutogeneratedTypeSchema imp) kind = Some builder ->
  (forall title, jsTruthy (builder title) = true) ->
  (schemaKey, d) ∈ entries ->
  String.prefix "tab-" schemaKey = false ->
  type_ d = kind ->
  generated (snd (typeMapperLoop imp self entries parseObj st)) kind = true.
Proof.
  induction entries as [|[k' d'] rest IH];
    intros parseObj st Hparser Hget Htruthy Hin Hkey Hty.
  - by apply elem_of_nil in Hin.
  - rewrite typeMapperLoop_cons.
    destruct (typeMapperEntry_returns self parseObj k' d' st Hparser) as [parseObj' Hentry].
    apply elem_of_cons in Hin as [Heq|Hin].
    + inversion Heq; subst k' d'.
      pose proof (mapGet_includes _ _ _ Hget) as Hshared.
      fold (autogeneratedPropertyTypes imp) in Hshared. rewrite <- Hty in Hshared, Hget.
      assert (skipped schemaKey d = false) as Hskip.
      { unfold skipped. rewrite Hkey. simpl.
        destruct (shared_kinds imp _ Hshared) as [H|[H|[H|[H|H]]]]; by rewrite H. }
      rewrite typeMapperEntry_field by assumption. rewrite Hshared.
      apply typeMapperLoop_keeps. rewrite <- Hty. by eapply sharedStep_marks.
    + destruct (typeMapperEntry imp self parseObj (k', d') st) as [[a|e] st1];
        simpl in Hentry; [|discriminate].
      by eapply IH.
Qed.

Lemma generateComponents_keeps self components kind : forall st,
  generated st kind = true ->
  generated (snd (generateComponents imp self components st)) kind = true.
Proof.
  induction components as [|c rest IH]; intros st Hk; [exact Hk|].
  rewrite generateComponents_cons.
  pose proof (generateComponent_keeps imp self c kind st Hk) as Hc.
  destruct (generateComponent imp self c st) as [[[]|e] st1]; simpl in Hc; [|exact Hc].
  by apply IH.
Qed.

Lemma generateComponents_marks self kind builder component schemaKey d components :
  forall st,
    parserNeverThrows self ->
    mapGet (getAutogeneratedTypeSchema imp) kind = Some builder ->
    (forall title, jsTruthy (builder title) = true) ->
    component ∈ components ->
    (schemaKey, d) ∈ schema component ->
    String.prefix "tab-" schemaKey = false ->
    type_ d = kind ->
    generated (snd (generateComponents imp self components st)) kind = true.
Proof.
  induction components as [|c rest IH];
    intros st Hparser Hget Htruthy Hcomp Hin Hkey Hty.
  - by apply elem_of_nil in Hcomp.
  - rewrite generateComponents_cons.
    pose proof (generateComponent_returns self c st Hparser) as Hok.
    apply elem_of_cons in Hcomp as [<-|Hcomp].
    + assert (generated (snd (generateComponent imp self component st)) kind = true) as Hmark.
      { rewrite generateComponent_unfold.
        pose proof (typeMapperLoop_marks self kind builder schemaKey d (schema component) ∅ st
                      Hparser Hget Htruthy Hin Hkey Hty) as Hloop.
        destruct (typeMapperLoop imp self (schema component) ∅ st) as [[a|e] st1];
          simpl in Hloop; [|exact Hloop].
        by component_cases (componentObject imp self component a) (name component) st1. }
      destruct (generateComponent imp self component st) as [[[]|e] st1]; simpl in *;
        [|exact Hmark].
      by apply generateComponents_keeps.
    + destruct (generateComponent imp self c st) as [[[]|e] st1]; simpl in Hok;
        [|discriminate].
      by eapply IH.
Qed.

(** X10. With a compiler that accepts every shared schema with a non-empty
    text and no parser that throws, a shared kind carried by some field of
    the run (tab markers aside) has exactly one definition in the output,
    and what is pushed for every kind is what was compiled for it. *)
Theorem used_shared_kind_is_emitted_exactly_once
  schemas o parser kind builder component schemaKey d :
  parserNeverThrows (new schemas o parser) ->
  mapGet (getAutogeneratedTypeSchema imp) kind = Some builder ->
  (forall title, jsTruthy (builder title) = true) ->
  component ∈ schemas ->
  (schemaKey, d) ∈ schema component ->
  String.prefix "tab-" schemaKey = false ->
  type_ d = kind ->
  emittedFor kind (snd (run imp schemas o parser)) = 1%nat /\
  generated (snd (run imp schemas o parser)) kind = true /\
  forall k, emittedFor k (snd (run imp schemas o parser)) =
            rendersOf k (snd (run imp schemas o parser)).
Proof.
  intros Hparser Hget Htruthy Hcomp Hin Hkey Hty.
  assert (forall k, emittedFor k (snd (run imp schemas o parser)) =
                    rendersOf k (snd (run imp schemas o parser))) as Hsame.
  { apply (generateTSFile_preserves (new schemas o parser)
             (fun st => forall k, emittedFor k st = rendersOf k st) (fun _ => True)); auto.
    - intros typeName st _ HP k. specialize (HP k). unfold emittedFor, rendersOf in *.
      shared_cases typeName (getBlokTypeName imp (new schemas o parser) typeName) st;
        try assumption.
      + destruct (compile_accepts (length (compileCalls st))
                    (builder0 (getBlokTypeName imp (new schemas o parser) typeName)) typeName)
          as (c & r & Hok).
        assert (ts = String c r) as -> by congruence.
        simpl. rewrite !length_filter_snoc. unfold isSharedDefinition, isRender in *. simpl. lia.
      + destruct (compile_accepts (length (compileCalls st))
                    (builder0 (getBlokTypeName imp (new schemas o parser) typeName)) typeName)
          as (c & r & Hok). congruence.
    - intros obj name_ st HP k. specialize (HP k). unfold emittedFor, rendersOf in *.
      component_cases obj name_ st; simpl; rewrite ?length_filter_snoc;
        unfold isSharedDefinition, isRender in *; simpl; lia. }
  assert (generated (snd (run imp schemas o parser)) kind = true) as Hmark.
  { unfold run, generateTSFile, bind. simpl componentsJSONSchemas.
    pose proof (generateComponents_marks (new schemas o parser) kind builder component
                  schemaKey d schemas initialState Hparser Hget Htruthy Hcomp Hin Hkey Hty)
      as H.
    destruct (generateComponents imp (new schemas o parser) schemas initialState)
      as [[[]|e] st1]; rewrite ?writeTypeDefs_state; exact H. }
  destruct (run_registryAgrees schemas o parser) as [_ Htrue].
  split; [|split; [exact Hmark|exact Hsame]].
  rewrite Hsame. by apply Htrue.
Qed.

End AcceptingCompiler.

(** ** The group index *)

Lemma truthyStr_Some (u : string) : truthyStr (Some u) = true <-> u <> "".
Proof. destruct u; simpl; split; congruence. Qed.

Lemma groups_snoc (components : list ComponentJSONSchema) (c : ComponentJSONSchema) :
  generateComponentGroupsAndComponentNamesFromJSONSchemas (components ++ [c]) =
  groupsStep (generateComponentGroupsAndComponentNamesFromJSONSchemas components) c.
Proof.
  unfold generateComponentGroupsAndComponentNamesFromJSONSchemas. by rewrite fold_left_app.
Qed.

Lemma groups_index (components : list ComponentJSONSchema) (g : string) :
  match componentGroups (generateComponentGroupsAndComponentNamesFromJSONSchemas components) !! g
  with
  | Some members =>
      NoDup members /\ members <> [] /\
      forall n, n ∈ members <-> exists c, c ∈ components /\ inGroup g c /\ name c = n
  | None => forall c, c ∈ components -> ~ inGroup g c
  end.
Proof.
  induction components as [|c components IH] using rev_ind.
  - simpl. rewrite lookup_empty. intros c Hc. by apply elem_of_nil in Hc.
  - rewrite groups_snoc. unfold groupsStep. simpl.
    set (idx := generateComponentGroupsAndComponentNamesFromJSONSchemas components) in *.
    destruct (truthyStr (component_group_uuid c)) eqn:Htruthy.
    + destruct (component_group_uuid c) as [u|] eqn:Huuid; [|discriminate]. simpl.
      apply truthyStr_Some in Htruthy.
      destruct (decide (u = g)) as [->|Hne].
      * rewrite lookup_insert_eq.
        destruct (componentGroups idx !! g) as [members|] eqn:Hlook.
        -- destruct IH as (Hnd & Hne & Hmem). split; [by apply setAdd_NoDup|]. split.
           ++ intros Hnil. assert (name c ∈ setAdd members (name c)) as Hin
                by (apply setAdd_elem_of; auto).
              rewrite Hnil in Hin. by apply elem_of_nil in Hin.
           ++ intros n. rewrite setAdd_elem_of, Hmem. split.
              ** intros [(c' & Hc' & Hg & Hn)| ->].
                 --- exists c'. split; [apply elem_of_app; auto|auto].
                 --- exists c. split; [apply elem_of_app; right; by apply list_elem_of_singleton|].
                     by repeat split.
              ** intros (c' & Hc' & Hg & Hn). apply elem_of_app in Hc' as [Hc'|Hc'].
                 --- left. eauto.
                 --- apply list_elem_of_singleton in Hc'. subst c'. auto.
        -- split; [apply NoDup_singleton|]. split; [discriminate|].
           intros n. rewrite list_elem_of_singleton. split.
           ++ intros ->. exists c.
              split; [apply elem_of_app; right; by apply list_elem_of_singleton|].
              by repeat split.
           ++ intros (c' & Hc' & Hg & Hn). apply elem_of_app in Hc' as [Hc'|Hc'].
              ** by destruct (IH c' Hc').
              ** apply list_elem_of_singleton in Hc'. by subst c'.
      * rewrite lookup_insert_ne by assumption.
        destruct (componentGroups idx !! g) as [members|] eqn:Hlook.
        -- destruct IH as (Hnd & Hnil & Hmem). split; [exact Hnd|]. split; [exact Hnil|].
           intros n. rewrite Hmem. split.
           ++ intros (c' & Hc' & Hg & Hn). exists c'. split; [apply elem_of_app; auto|auto].
           ++ intros (c' & Hc' & Hg & Hn). apply elem_of_app in Hc' as [Hc'|Hc']; [eauto|].
              apply list_elem_of_singleton in Hc'. subst c'.
              destruct Hg as [Hg _]. congruence.
        -- intros c' Hc' Hg. apply elem_of_app in Hc' as [Hc'|Hc']; [by apply (IH c')|].
           apply list_elem_of_singleton in Hc'. subst c'. destruct Hg as [Hg _]. congruence.
    + assert (~ inGroup g c) as Hnot.
      { intros [Hg Hne]. rewrite Hg in Htruthy. apply truthyStr_Some in Hne. congruence. }
      destruct (componentGroups idx !! g) as [members|] eqn:Hlook.
      * destruct IH as (Hnd & Hnil & Hmem). split; [exact Hnd|]. split; [exact Hnil|].
        intros n. rewrite Hmem. split.
        -- intros (c' & Hc' & Hg & Hn). exists c'. split; [apply elem_of_app; auto|auto].
        -- intros (c' & Hc' & Hg & Hn). apply elem_of_app in Hc' as [Hc'|Hc']; [eauto|].
           apply list_elem_of_singleton in Hc'. by subst c'.
      * intros c' Hc' Hg. apply elem_of_app in Hc' as [Hc'|Hc']; [by apply (IH c')|].
        apply list_elem_of_singleton in Hc'. by subst c'.
Qed.

(** X11. The group index maps a group to the names of the components that
    carry its non-empty [component_group_uuid], each once; a group is a key
    of the index exactly when some component belongs to it, so no group is
    empty and a component without a group enters none. *)
Theorem group_index_members schemas o parser g :
  match groups (new schemas o parser) !! g with
  | Some members =>
      NoDup members /\ members <> [] /\
      forall n, n ∈ members <-> exists c, c ∈ schemas /\ inGroup g c /\ name c = n
  | None => forall c, c ∈ schemas -> ~ inGroup g c
  end.
Proof. exact (groups_index schemas g). Qed.

(** X12. Every name in a group of the index is also in the set of all
    component names. *)
Theorem group_members_are_known_names schemas o parser g members n :
  groups (new schemas o parser) !! g = Some members ->
  n ∈ members ->
  n ∈ names (new schemas o parser).
Proof.
  intros Hlook Hn. pose proof (groups_index schemas g) as Hidx.
  simpl in Hlook. rewrite Hlook in Hidx. destruct Hidx as (_ & _ & Hmem).
  apply Hmem in Hn as (c & Hc & _ & Hname).
  apply (names_new schemas o parser). eauto.
Qed.

(** ** "bloks" fields *)

Lemma currentGroupElements_flat self whitelist :
  currentGroupElements imp self whitelist =
  flat_map (fun g => map (getBlokTypeName imp self) (default [] (groups self !! g))) whitelist.
Proof.
  unfold currentGroupElements.
  assert (forall acc,
             fold_left
               (fun bloks groupUUID =>
                  match groups self !! groupUUID with
                  | Some bloksInGroup => bloks ++ map (getBlokTypeName imp self) bloksInGroup
                  | None => bloks
                  end) whitelist acc =
             acc ++ flat_map
                      (fun g => map (getBlokTypeName imp self) (default [] (groups self !! g)))
                      whitelist) as H.
  { induction whitelist as [|g rest IH]; intros acc; simpl; [by rewrite app_nil_r|].
    rewrite IH. destruct (groups self !! g); simpl; [by rewrite app_assoc|reflexivity]. }
  apply (H []).
Qed.

(** X13. A "bloks" field restricted by a non-empty list of groups gets the
    array over the formatted names of the members of the listed groups, in
    the order of the list; it gets [never[]] exactly when no component of
    the run belongs to any of the listed groups.  The state is left alone.
    This is for a field the loop keeps: its key neither starts with [tab-]
    nor is [__proto__]. *)
Theorem bloks_restricted_by_groups schemas o parser parseObj schemaKey d st whitelist :
  String.prefix "tab-" schemaKey = false ->
  schemaKey <> "__proto__" ->
  type_ d = "bloks" ->
  truthy (restrict_components d) = true ->
  isStr (restrict_type d) "groups" = true ->
  nonEmptyArray (component_group_whitelist d) = Some whitelist ->
  exists element,
    typeMapperEntry imp (new schemas o parser) parseObj (schemaKey, d) st =
      (Ok (<[schemaKey := Annotated element]> parseObj), st) /\
    (a_tsType element = Some "never[]" <->
     forall g c, g ∈ whitelist -> c ∈ schemas -> ~ inGroup g c) /\
    (a_tsType element = Some "never[]" \/
     a_tsType element =
       Some ("(" +:+ String.concat " | "
               (flat_map
                  (fun g => map (getBlokTypeName imp (new schemas o parser))
                              (default [] (groups (new schemas o parser) !! g)))
                  whitelist) +:+ ")[]")).
Proof.
  intros Hkey Hproto Hty Hrestrict Hgroups Hlist. eexists.
  split; [by apply typeMapperEntry_bloks|].
  unfold bloksTsType. rewrite Hrestrict, Hgroups, Hlist, currentGroupElements_flat.
  set (elements := flat_map _ whitelist).
  assert (elements = [] <-> forall g c, g ∈ whitelist -> c ∈ schemas -> ~ inGroup g c) as Hnil.
  { subst elements. clear Hlist. induction whitelist as [|g rest IH]; simpl.
    - split; [|reflexivity]. intros _ g c Hg. by apply elem_of_nil in Hg.
    - pose proof (groups_index schemas g) as Hidx. simpl in Hidx.
      destruct (componentGroups
                  (generateComponentGroupsAndComponentNamesFromJSONSchemas schemas) !! g)
        as [members|] eqn:Hlook; simpl.
      + destruct Hidx as (_ & Hne & Hmem). split.
        * intros Hnil. apply app_eq_nil in Hnil as [Hnil _].
          apply map_eq_nil in Hnil. contradiction.
        * intros Hnone. exfalso. destruct members as [|n members]; [contradiction|].
          destruct (proj1 (Hmem n)) as (c & Hc & Hg & _); [apply elem_of_cons; auto|].
          apply (Hnone g c); auto. apply elem_of_cons. auto.
      + rewrite IH. split.
        * intros Hrest g' c Hg' Hc. apply elem_of_cons in Hg' as [->|Hg']; auto.
        * intros Hall g' c Hg' Hc. apply Hall; auto. apply elem_of_cons. auto. }
  destruct elements as [|x elements]; simpl.
  - split; [|by left]. split; [intros _; by apply Hnil|reflexivity].
  - split; [|by right]. split; [discriminate|].
    intros Hall. apply Hnil in Hall. discriminate.
Qed.

(** X14. A "bloks" field restricted by a non-empty list of components gets
    the array over the formatted names of that list, as listed: the names
    are not looked up in the index, and the state is left alone.  This is
    for a field the loop keeps: its key neither starts with [tab-] nor is
    [__proto__]. *)
Theorem bloks_restricted_by_list self parseObj schemaKey d st whitelist :
  String.prefix "tab-" schemaKey = false ->
  schemaKey <> "__proto__" ->
  type_ d = "bloks" ->
  truthy (restrict_components d) = true ->
  isStr (restrict_type d) "groups" = false ->
  nonEmptyArray (component_whitelist d) = Some whitelist ->
  exists element,
    typeMapperEntry imp self parseObj (schemaKey, d) st =
      (Ok (<[schemaKey := Annotated element]> parseObj), st) /\
    a_tsType element =
      Some ("(" +:+ String.concat " | " (map (getBlokTypeName imp self) whitelist) +:+ ")[]").
Proof.
  intros Hkey Hproto Hty Hrestrict Hgroups Hlist. eexists.
  split; [by apply typeMapperEntry_bloks|].
  unfold bloksTsType. by rewrite Hrestrict, Hgroups, Hlist.
Qed.

(** ** The mapping [#typeMapper] returns *)

Lemma lookup_assignOwn (parseObj : gmap string PropertySchema) schemaKey element k :
  assignOwn parseObj schemaKey element !! k =
  if String.eqb schemaKey k && negb (String.eqb schemaKey "__proto__")
  then Some element else parseObj !! k.
Proof.
  unfold assignOwn. destruct (String.eqb schemaKey "__proto__"); simpl.
  - by rewrite andb_false_r.
  - rewrite andb_true_r. destruct (String.eqb_spec schemaKey k) as [->|Hne].
    + by rewrite lookup_insert_eq.
    + by rewrite lookup_insert_ne.
Qed.

Lemma typeMapperEntry_fst_noparser self parseObj schemaKey d st :
  customTypeParser self = None ->
  fst (typeMapperEntry imp self parseObj (schemaKey, d) st) =
  Ok (if skipped schemaKey d then parseObj
      else assignOwn parseObj schemaKey (Annotated (fieldAnnotation imp self d))).
Proof.
  intros Hparser. destruct (skipped schemaKey d) eqn:Hskip.
  - destruct (String.prefix "tab-" schemaKey) eqn:Hkey.
    + by rewrite typeMapperEntry_tab.
    + unfold skipped in Hskip. rewrite Hkey in Hskip. simpl in Hskip.
      unfold typeMapperEntry. rewrite Hkey, Hskip, Hparser. simpl.
      by rewrite (left_id_L ∅ (∪)).
  - by rewrite typeMapperEntry_field.
Qed.

Lemma mapGet_None {A} (l : list (string * A)) (k : string) :
  k ∉ map fst l -> mapGet l k = None.
Proof.
  induction l as [|[k' v] l IH]; simpl; [reflexivity|]. intros Hnot.
  destruct (String.eqb_spec k' k) as [->|Hne].
  - exfalso. apply Hnot. apply elem_of_cons. auto.
  - apply IH. intros Hin. apply Hnot. apply elem_of_cons. auto.
Qed.

Lemma mapGet_elem_of {A} (l : list (string * A)) (k : string) (v : A) :
  NoDup (map fst l) -> (k, v) ∈ l -> mapGet l k = Some v.
Proof.
  induction l as [|[k' v'] l IH]; simpl; intros Hnd Hin; [by apply elem_of_nil in Hin|].
  apply NoDup_cons in Hnd as [Hnot Hnd].
  apply elem_of_cons in Hin as [Heq|Hin].
  - inversion Heq; subst. by rewrite String.eqb_refl.
  - destruct (String.eqb_spec k' k) as [->|Hne]; [|by apply IH].
    exfalso. apply Hnot. apply list_elem_of_fmap. exists (k, v). auto.
Qed.

Lemma typeMapperLoop_lookup self entries : forall parseObj st,
  customTypeParser self = None ->
  NoDup (map fst entries) ->
  exists properties,
    fst (typeMapperLoop imp self entries parseObj st) = Ok properties /\
    forall k,
      properties !! k =
      match mapGet entries k with
      | Some d =>
          if kept k d then Some (Annotated (fieldAnnotation imp self d))
          else parseObj !! k
      | None => parseObj !! k
      end.
Proof.
  induction entries as [|[k0 d0] rest IH]; intros parseObj st Hparser Hnd.
  - exists parseObj. by split.
  - simpl in Hnd. apply NoDup_cons in Hnd as [Hnot Hnd].
    rewrite typeMapperLoop_cons.
    pose proof (typeMapperEntry_fst_noparser self parseObj k0 d0 st Hparser) as Hentry.
    destruct (typeMapperEntry imp self parseObj (k0, d0) st) as [[parseObj'|e] st1];
      simpl in Hentry; [|discriminate].
    assert (parseObj' =
            if skipped k0 d0 then parseObj
            else assignOwn parseObj k0 (Annotated (fieldAnnotation imp self d0))) as Hobj
      by congruence.
    clear Hentry.
    destruct (IH parseObj' st1 Hparser Hnd) as (properties & Hloop & Hlook).
    exists properties. split; [exact Hloop|].
    intros k. rewrite Hlook. simpl.
    destruct (String.eqb_spec k0 k) as [->|Hne].
    + rewrite (mapGet_None rest k Hnot), Hobj. unfold kept.
      destruct (skipped k d0); [reflexivity|].
      rewrite lookup_assignOwn, String.eqb_refl. simpl.
      by destruct (String.eqb k "__proto__").
    + assert (parseObj' !! k = parseObj !! k) as ->; [|reflexivity].
      rewrite Hobj. destruct (skipped k0 d0); [reflexivity|].
      rewrite lookup_assignOwn. by destruct (String.eqb_spec k0 k).
Qed.

(** X15. Without a custom parser, the mapping [#typeMapper] returns for a
    schema has one entry for each field that is neither a tab marker, nor
    custom, nor named [__proto__], and no other.  The annotation of a field
    depends on its
    descriptor alone: not on the fields before it, not on the registry, not
    on what the compiler answered. *)
Theorem typeMapper_lookup self componentSchema st :
  customTypeParser self = None ->
  NoDup (map fst componentSchema) ->
  exists properties,
    fst (typeMapper imp self componentSchema st) = Ok properties /\
    forall k,
      properties !! k =
      match mapGet componentSchema k with
      | Some d => if kept k d then Some (Annotated (fieldAnnotation imp self d)) else None
      | None => None
      end.
Proof.
  intros Hparser Hnd.
  destruct (typeMapperLoop_lookup self componentSchema ∅ st Hparser Hnd)
    as (properties & Hloop & Hlook).
  exists properties. split; [exact Hloop|].
  intros k. rewrite Hlook, lookup_empty.
  destruct (mapGet componentSchema k) as [d|]; [|reflexivity]. by destruct (kept k d).
Qed.

(** X16. A tab marker or a custom field that is marked required is listed
    in [required] of the object handed to the compiler although, without a
    parser, the object has no property of that name. *)
Theorem required_key_without_property self component st schemaKey d :
  customTypeParser self = None ->
  NoDup (map fst (schema component)) ->
  (schemaKey, d) ∈ schema component ->
  truthy (required d) = true ->
  skipped schemaKey d = true ->
  schemaKey <> "_uid" ->
  schemaKey <> "component" ->
  exists properties,
    fst (typeMapper imp self (schema component) st) = Ok properties /\
    schemaKey ∈ obj_required (componentObject imp self component properties) /\
    obj_properties (componentObject imp self component properties) !! schemaKey = None.
Proof.
  intros Hparser Hnd Hin Hreq Hskip Huid Hcomp.
  destruct (typeMapperLoop_lookup self (schema component) ∅ st Hparser Hnd)
    as (properties & Hloop & Hlook).
  exists properties. split; [exact Hloop|]. split.
  - simpl. unfold requiredFields. apply requiredFields_fold. right. eauto.
  - simpl. rewrite !lookup_insert_ne by congruence.
    rewrite Hlook, (mapGet_elem_of _ _ _ Hnd Hin). unfold kept. rewrite Hskip.
    apply lookup_empty.
Qed.

(** X17. A field of a shared kind other than "multilink" is annotated with
    its kind and with the formatted name of the kind as [tsType], whatever
    its other attributes, the registry and the compiler say; once the kind
    is marked as generated the field leaves the state alone.  This is for
    a field the loop keeps: its key neither starts with [tab-] nor is
    [__proto__]. *)
Theorem shared_field_annotation self parseObj schemaKey d st :
  String.prefix "tab-" schemaKey = false ->
  schemaKey <> "__proto__" ->
  includes (autogeneratedPropertyTypes imp) (type_ d) = true ->
  type_ d <> "multilink" ->
  exists st',
    typeMapperEntry imp self parseObj (schemaKey, d) st =
      (Ok (<[schemaKey :=
               Annotated {| a_type := Some (One (type_ d)); a_enum := None; a_items := None;
                            a_tsType := Some (getBlokTypeName imp self (type_ d)) |}]>
             parseObj), st') /\
    (generated st (type_ d) = true -> st' = st).
Proof.
  intros Hkey Hproto Hshared Hne. eexists. split.
  - rewrite typeMapperEntry_shared by assumption.
    rewrite (assignOwn_insert _ _ _ Hproto).
    destruct (String.eqb_spec (type_ d) "multilink"); [contradiction|reflexivity].
  - intros Hflag. unfold sharedStep, bind, generateType.
    fold (generated st (type_ d)). by rewrite Hflag.
Qed.

(** ** Type names *)

Lemma removeSpaces_no_space (s : string) : spaceFree (removeSpaces s) = true.
Proof.
  unfold spaceFree. induction s as [|c s IH]; simpl; [reflexivity|].
  destruct (Ascii.eqb c " ") eqn:Hc; [exact IH|].
  simpl. by rewrite Hc.
Qed.

(** X18. A generated type name never contains a space, whatever the two
    lodash functions return. *)
Theorem type_names_have_no_space self blokName :
  spaceFree (getBlokTypeName imp self blokName) = true.
Proof. apply removeSpaces_no_space. Qed.

(** ** Loading the parser *)

(** X19. When no parser path is configured, when the import of the module
    throws, or when its default export is not a function, the instance has
    no parser; the loop over its components then ends whatever the compiler
    does, and [generateTSFile] ends as [#writeTypeDefs] does on the final
    buffer. *)
Theorem init_without_usable_parser importModule path schemas o :
  (truthyStr path = false \/
   (exists e, importModule (default "" path) = Throw e) \/
   importModule (default "" path) = Ok None) ->
  customTypeParser (init importModule path schemas o) = None /\
  fst (generateTSFile imp (init importModule path schemas o) initialState) =
    fst (writeTypeDefs imp (init importModule path schemas o)
           (snd (generateTSFile imp (init importModule path schemas o) initialState))).
Proof.
  intros Hcases.
  assert (loadCustomFieldTypeParser importModule path = None) as Hload.
  { unfold loadCustomFieldTypeParser.
    destruct Hcases as [->|[[e ->]| ->]]; [reflexivity| |];
      by destruct (truthyStr path). }
  unfold init. rewrite Hload. split; [reflexivity|].
  apply generateTSFile_result. exact I.
Qed.

(** ** [#parseBlokSchemaProperty] *)

Lemma optionValues_nonEmpty d l :
  nonEmptyArray (options d) = Some l ->
  optionValues d = (if truthy (exclude_empty_option d) then [] else [""]) ++ map opt_value l /\
  isNil (optionValues d) = false.
Proof.
  intros Hl. unfold optionValues. rewrite Hl.
  destruct (options d) as [[|x r]|]; simpl in Hl; try discriminate.
  inversion Hl; subst l. simpl. by destruct (truthy (exclude_empty_option d)).
Qed.

Lemma optionValues_empty d :
  nonEmptyArray (options d) = None -> optionValues d = [].
Proof. intros Hl. unfold optionValues. by rewrite Hl. Qed.

Lemma parse_rule_not_taken d :
  isStr (source d) "internal_stories" = false \/ filter_content_type d = None ->
  (if isStr (source d) "internal_stories" then filter_content_type d else None) = None.
Proof. intros [-> | ->]; [reflexivity|]. by destruct (isStr (source d) "internal_stories"). Qed.

(** X20. For a field of kind "option" outside the "internal_stories" rule:
    with options, the enum holds their values in order, after an empty
    value unless [exclude_empty_option] is true; the type is then string
    when there is no source, and number-or-string when the source is
    "internal".  Without options there is no enum, and without a source
    either the type is "any". *)
Theorem option_enum_values self d :
  type_ d = "option" ->
  isStr (source d) "internal_stories" = false \/ filter_content_type d = None ->
  (forall l,
      nonEmptyArray (options d) = Some l ->
      a_enum (parseBlokSchemaProperty imp self d) =
        Some ((if truthy (exclude_empty_option d) then [] else [""]) ++ map opt_value l) /\
      (source d = None -> a_type (parseBlokSchemaProperty imp self d) = Some (One "string")) /\
      (source d = Some "internal" ->
       a_type (parseBlokSchemaProperty imp self d) = Some (Many ["number"; "string"]))) /\
  (nonEmptyArray (options d) = None ->
   a_enum (parseBlokSchemaProperty imp self d) = None /\
   (source d = None -> a_type (parseBlokSchemaProperty imp self d) = Some (One "any"))).
Proof.
  intros Hty Hrule. apply parse_rule_not_taken in Hrule.
  unfold parseBlokSchemaProperty. rewrite Hty, Hrule. cbn [includes existsb String.eqb Ascii.eqb
    Bool.eqb autogeneratedPropertyTypes getAutogeneratedTypeSchema map fst orb].
  split.
  - intros l Hl. destruct (optionValues_nonEmpty d l Hl) as [Hvalues Hnil].
    rewrite Hnil. simpl. rewrite Hvalues. split; [reflexivity|]. split.
    + intros Hsrc. unfold fallbackType. rewrite Hsrc. simpl.
      by rewrite <- Hvalues, Hnil.
    + intros Hsrc. unfold fallbackType. rewrite Hsrc. reflexivity.
  - intros Hl. rewrite (optionValues_empty d Hl). simpl. split; [reflexivity|].
    intros Hsrc. unfold fallbackType. by rewrite Hsrc.
Qed.

(** X21. For a field of kind "options" outside the "internal_stories" rule
    the annotation is an array without enum of its own: with options the
    items carry the enum of their values (after the empty value unless
    excluded), without options the items carry a type. *)
Theorem options_items self d :
  type_ d = "options" ->
  isStr (source d) "internal_stories" = false \/ filter_content_type d = None ->
  a_type (parseBlokSchemaProperty imp self d) = Some (One "array") /\
  a_enum (parseBlokSchemaProperty imp self d) = None /\
  a_tsType (parseBlokSchemaProperty imp self d) = None /\
  (forall l,
      nonEmptyArray (options d) = Some l ->
      a_items (parseBlokSchemaProperty imp self d) =
        Some {| items_type := None;
                items_enum :=
                  Some ((if truthy (exclude_empty_option d) then [] else [""])
                        ++ map opt_value l) |}) /\
  (nonEmptyArray (options d) = None ->
   exists t, a_items (parseBlokSchemaProperty imp self d) =
             Some {| items_type := Some t; items_enum := None |}).
Proof.
  intros Hty Hrule. apply parse_rule_not_taken in Hrule.
  unfold parseBlokSchemaProperty. rewrite Hty, Hrule. cbn [includes existsb String.eqb Ascii.eqb
    Bool.eqb autogeneratedPropertyTypes getAutogeneratedTypeSchema map fst orb].
  destruct (nonEmptyArray (options d)) as [l|] eqn:Hl.
  - destruct (optionValues_nonEmpty d l Hl) as [Hvalues Hnil]. rewrite Hnil. simpl.
    repeat split; try discriminate.
    intros l' Hl'. inversion Hl'; subst l'. by rewrite Hvalues.
  - rewrite (optionValues_empty d Hl). simpl. repeat split; try discriminate. eauto.
Qed.

(** X22. For every kind but "option" and "options", and outside the
    "internal_stories" rule, the annotation depends on the kind alone:
    [source], [options] and the other attributes are ignored.  The six
    text-like kinds, "number" among them, become string, and a kind the
    generator does not know becomes "any". *)
Theorem plain_kinds_depend_on_kind_alone self d :
  type_ d <> "option" ->
  type_ d <> "options" ->
  isStr (source d) "internal_stories" = false \/ filter_content_type d = None ->
  parseBlokSchemaProperty imp self d = parseBlokSchemaProperty imp self (plainField (type_ d)) /\
  (includes ["datetime"; "image"; "markdown"; "number"; "text"; "textarea"] (type_ d) = true ->
   parseBlokSchemaProperty imp self d = annType (One "string")) /\
  (includes ["asset"; "multiasset"; "multilink"; "richtext"; "table"; "bloks"; "boolean";
             "datetime"; "image"; "markdown"; "number"; "text"; "textarea"] (type_ d) = false ->
   parseBlokSchemaProperty imp self d = annType (One "any")).
Proof.
  intros Hopt Hopts Hrule. apply parse_rule_not_taken in Hrule.
  assert (parseBlokSchemaProperty imp self d =
          parseBlokSchemaProperty imp self (plainField (type_ d))) as Hplain.
  { unfold parseBlokSchemaProperty. rewrite Hrule.
    cbn [type_ plainField source filter_content_type isStr].
    destruct (includes (autogeneratedPropertyTypes imp) (type_ d)); [reflexivity|].
    destruct (String.eqb_spec (type_ d) "option"); [contradiction|].
    destruct (String.eqb_spec (type_ d) "options"); [contradiction|]. reflexivity. }
  split; [exact Hplain|]. rewrite Hplain. clear Hplain Hrule. split.
  - intros Hsix. apply includes_elem_of in Hsix.
    repeat (apply elem_of_cons in Hsix as [->|Hsix]; [reflexivity|]).
    by apply elem_of_nil in Hsix.
  - intros Hunknown. simpl in Hunknown.
    repeat (apply orb_false_elim in Hunknown as [? Hunknown]).
    unfold parseBlokSchemaProperty. simpl.
    destruct (String.eqb_spec (type_ d) "option"); [contradiction|].
    destruct (String.eqb_spec (type_ d) "options"); [contradiction|].
    repeat match goal with H : String.eqb _ _ = false |- _ => rewrite H; clear H end.
    reflexivity.
Qed.

(** X23. Whatever the descriptor, the annotation has one of the five shapes
    of [BlokSchemaPropertyTypeAnnotation]. *)
Theorem parsed_annotation_is_well_shaped self d :
  wellShaped (parseBlokSchemaProperty imp self d) = true.
Proof.
  unfold parseBlokSchemaProperty.
  destruct (includes (autogeneratedPropertyTypes imp) (type_ d)); [reflexivity|].
  destruct (if isStr (source d) "internal_stories" then filter_content_type d else None);
    [reflexivity|].
  destruct (String.eqb (type_ d) "option").
  { destruct (negb (isNil (optionValues d))); reflexivity. }
  destruct (String.eqb (type_ d) "options").
  { destruct (negb (isNil (optionValues d))); reflexivity. }
  repeat match goal with |- context [if ?b then _ else _] => destruct b end; reflexivity.
Qed.

End Coverage.

(** ** Worked examples of the further properties *)

(** X1 with a parser that returns, a compiler that accepts every schema and
    a file system that refuses the write: the run throws the error of the
    write. *)
Lemma run_throws_only_in_parser_or_write_witness :
  parserNeverThrows (new [teaser; banner] Sample.bare (Some colorParser)) /\
  fst (run (readOnly sampleImports) [teaser; banner] Sample.bare (Some colorParser)) =
    Throw "EACCES: permission denied".
Proof.
  assert (parserNeverThrows (new [teaser; banner] Sample.bare (Some colorParser))) as Hparser.
  { intros schemaKey d. eexists. reflexivity. }
  split; [exact Hparser|].
  exact (eq_trans
           (run_throws_only_in_parser_or_write (readOnly sampleImports)
              [teaser; banner] Sample.bare (Some colorParser) Hparser)
           eq_refl).
Defined.

(** With a compiler that rejects "teaser" and a file system that accepts the
    write, the same run returns. *)
Lemma run_returns_after_rejected_component :
  exists contents,
    fst (run (Sample.imports (rejectComponent "teaser" "unsupported construct"))
           [teaser; banner] Sample.bare (Some colorParser)) = Ok (Some contents).
Proof. eexists. vm_compute. reflexivity. Qed.

(** X2 with a parser that throws on the custom field of "banner". *)
Lemma throwing_parser_aborts_run_witness :
  banner ∈ [teaser; banner; grid] /\
  ("accent", customField) ∈ schema banner /\
  String.prefix "tab-" "accent" = false /\
  type_ customField = "custom" /\
  brokenParser "accent" customField = Throw "parser failed" /\
  exists e, fst (run sampleImports [teaser; banner; grid] Sample.bare (Some brokenParser))
            = Throw e.
Proof.
  assert (banner ∈ [teaser; banner; grid]) as Hcomp
    by (apply elem_of_cons; right; apply elem_of_cons; by left).
  assert (("accent", customField) ∈ schema banner) as Hin
    by (apply elem_of_cons; by left).
  split; [exact Hcomp|]. split; [exact Hin|]. do 3 (split; [reflexivity|]).
  exact (throwing_parser_aborts_run sampleImports [teaser; banner; grid] Sample.bare
           brokenParser banner "accent" customField "parser failed"
           Hcomp Hin eq_refl eq_refl eq_refl).
Defined.

(** X5 with a compiler that rejects "teaser": "grid" is compiled all the
    same. *)
Lemma every_component_is_compiled_once_witness :
  parserNeverThrows (new [teaser; grid] Sample.bare None) /\
  compiledComponents
    (snd (run (Sample.imports (rejectComponent "teaser" "unsupported construct"))
            [teaser; grid] Sample.bare None)) = ["teaser"; "grid"].
Proof.
  split; [exact I|].
  exact (every_component_is_compiled_once
           (Sample.imports (rejectComponent "teaser" "unsupported construct"))
           [teaser; grid] Sample.bare None I).
Defined.

Lemma teaser_grid_have_no_table component schemaKey d :
  component ∈ [teaser; grid] -> (schemaKey, d) ∈ schema component ->
  String.prefix "tab-" schemaKey = false -> type_ d <> "table".
Proof.
  intros Hcomp Hin _.
  apply elem_of_cons in Hcomp as [->|Hcomp];
    [|apply elem_of_cons in Hcomp as [->|Hcomp]; [|by apply elem_of_nil in Hcomp]];
    simpl in Hin;
    (apply elem_of_cons in Hin as [Heq|Hin];
     [|apply elem_of_cons in Hin as [Heq|Hin]; [|by apply elem_of_nil in Hin]]);
    inversion Heq; subst; discriminate.
Defined.

(** X9 on "teaser" and "grid", which have no "table" field. *)
Lemma unused_shared_kind_is_never_compiled_witness :
  (forall component schemaKey d,
      component ∈ [teaser; grid] -> (schemaKey, d) ∈ schema component ->
      String.prefix "tab-" schemaKey = false -> type_ d <> "table") /\
  emittedFor "table" (snd (run sampleImports [teaser; grid] Sample.bare None)) = 0%nat /\
  generated (snd (run sampleImports [teaser; grid] Sample.bare None)) "table" = false.
Proof.
  split; [exact teaser_grid_have_no_table|].
  destruct (unused_shared_kind_is_never_compiled sampleImports [teaser; grid] Sample.bare None
              "table" teaser_grid_have_no_table) as (_ & Hemitted & Hflag).
  by split.
Defined.

(** X10 on the "image" field of "teaser": "grid" has an "asset" field too,
    and the kind is emitted once. *)
Lemma used_shared_kind_is_emitted_exactly_once_witness :
  (forall n schema_ name_,
      exists c r, compile sampleImports n (SharedInput schema_) name_ = Ok (String c r)) /\
  parserNeverThrows (new [teaser; grid] Sample.bare None) /\
  mapGet (getAutogeneratedTypeSchema sampleImports) "asset" = Some (Sample.stub "asset") /\
  (forall title, jsTruthy (Sample.stub "asset" title) = true) /\
  teaser ∈ [teaser; grid] /\
  ("image", plainField "asset") ∈ schema teaser /\
  emittedFor "asset" (snd (run sampleImports [teaser; grid] Sample.bare None)) = 1%nat.
Proof.
  assert (forall n schema_ name_,
             exists c r, compile sampleImports n (SharedInput schema_) name_ = Ok (String c r))
    as Haccepts by (intros n schema_ name_; eexists; eexists; reflexivity).
  assert (teaser ∈ [teaser; grid]) as Hcomp by (apply elem_of_cons; by left).
  assert (("image", plainField "asset") ∈ schema teaser) as Hin
    by (apply elem_of_cons; right; apply elem_of_cons; by left).
  split; [exact Haccepts|]. split; [exact I|]. split; [reflexivity|].
  split; [reflexivity|]. split; [exact Hcomp|]. split; [exact Hin|].
  destruct (used_shared_kind_is_emitted_exactly_once sampleImports Haccepts [teaser; grid]
              Sample.bare None "asset" (Sample.stub "asset") teaser "image" (plainField "asset")
              I eq_refl (fun _ => eq_refl) Hcomp Hin eq_refl eq_refl) as (Hone & _).
  exact Hone.
Defined.

(** X12 on the group "layout", whose only member is "grid". *)
Lemma group_members_are_known_names_witness :
  groups (new [teaser; grid] Sample.bare None) !! "layout" = Some ["grid"] /\
  "grid" ∈ ["grid"] /\
  "grid" ∈ names (new [teaser; grid] Sample.bare None).
Proof.
  assert (groups (new [teaser; grid] Sample.bare None) !! "layout" = Some ["grid"]) as Hlook
    by (vm_compute; reflexivity).
  assert ("grid" ∈ ["grid"]) as Hin by (apply elem_of_cons; by left).
  split; [exact Hlook|]. split; [exact Hin|].
  exact (group_members_are_known_names [teaser; grid] Sample.bare None "layout" ["grid"] "grid"
           Hlook Hin).
Defined.

(** X13 on a field restricted to the groups "nobody" and "layout": the
    first has no member, the second has "grid". *)
Lemma bloks_restricted_by_groups_witness :
  String.prefix "tab-" "body" = false /\
  "body" <> "__proto__" /\
  type_ (restrictedToGroups ["nobody"; "layout"]) = "bloks" /\
  truthy (restrict_components (restrictedToGroups ["nobody"; "layout"])) = true /\
  isStr (restrict_type (restrictedToGroups ["nobody"; "layout"])) "groups" = true /\
  nonEmptyArray (component_group_whitelist (restrictedToGroups ["nobody"; "layout"])) =
    Some ["nobody"; "layout"] /\
  exists element,
    typeMapperEntry sampleImports (new [teaser; grid] Sample.bare None) ∅
      ("body", restrictedToGroups ["nobody"; "layout"]) initialState =
      (Ok (<["body" := Annotated element]> ∅), initialState) /\
    a_tsType element = Some "(Grid)[]".
Proof.
  split; [reflexivity|]. split; [discriminate|]. do 4 (split; [reflexivity|]).
  destruct (bloks_restricted_by_groups sampleImports [teaser; grid] Sample.bare None ∅ "body"
              (restrictedToGroups ["nobody"; "layout"]) initialState ["nobody"; "layout"]
              eq_refl ltac:(discriminate) eq_refl eq_refl eq_refl eq_refl)
    as (element & Hstep & Hnever & [Hts|Hts]).
  - exfalso. apply (proj1 Hnever Hts "layout" grid).
    + apply elem_of_cons; right; apply elem_of_cons; by left.
    + apply elem_of_cons; right; apply elem_of_cons; by left.
    + split; [reflexivity|discriminate].
  - exists element. split; [exact Hstep|]. rewrite Hts. vm_compute. reflexivity.
Defined.

(** X14 on a list that names a component the run does not have. *)
Lemma bloks_restricted_by_list_witness :
  String.prefix "tab-" "body" = false /\
  "body" <> "__proto__" /\
  type_ (restrictedToComponents ["teaser"; "call_to_action"]) = "bloks" /\
  truthy (restrict_components (restrictedToComponents ["teaser"; "call_to_action"])) = true /\
  isStr (restrict_type (restrictedToComponents ["teaser"; "call_to_action"])) "groups" = false /\
  nonEmptyArray (component_whitelist (restrictedToComponents ["teaser"; "call_to_action"])) =
    Some ["teaser"; "call_to_action"] /\
  exists element,
    typeMapperEntry sampleImports sampleSelf ∅
      ("body", restrictedToComponents ["teaser"; "call_to_action"]) initialState =
      (Ok (<["body" := Annotated element]> ∅), initialState) /\
    a_tsType element = Some "(Teaser | CallToAction)[]".
Proof.
  split; [reflexivity|]. split; [discriminate|]. do 4 (split; [reflexivity|]).
  exact (bloks_restricted_by_list sampleImports sampleSelf ∅ "body"
           (restrictedToComponents ["teaser"; "call_to_action"]) initialState
           ["teaser"; "call_to_action"] eq_refl ltac:(discriminate)
           eq_refl eq_refl eq_refl eq_refl).
Defined.

Lemma page_keys_differ : NoDup (map fst (schema page)).
Proof.
  simpl. repeat (apply NoDup_cons; split;
                 [intros Hin; repeat (apply elem_of_cons in Hin as [Heq|Hin];
                                      [discriminate|]);
                  by apply elem_of_nil in Hin|]).
  apply NoDup_nil. exact I.
Defined.

(** X15 on "page": the tab marker and the custom field have no entry, the
    "image" field has its reference. *)
Lemma typeMapper_lookup_witness :
  customTypeParser (new [page] Sample.bare None) = None /\
  NoDup (map fst (schema page)) /\
  exists properties,
    fst (typeMapper sampleImports (new [page] Sample.bare None) (schema page) initialState) =
      Ok properties /\
    properties !! "tab-seo" = None /\
    properties !! "accent" = None /\
    properties !! "image" =
      Some (Annotated {| a_type := Some (One "asset"); a_enum := None; a_items := None;
                         a_tsType := Some "Asset" |}).
Proof.
  split; [reflexivity|]. split; [exact page_keys_differ|].
  destruct (typeMapper_lookup sampleImports (new [page] Sample.bare None) (schema page)
              initialState eq_refl page_keys_differ) as (properties & Hmap & Hlook).
  exists properties. split; [exact Hmap|].
  split; [|split]; rewrite Hlook; reflexivity.
Defined.

(** A schema with a field named [__proto__]: the field has no entry in the
    mapping, the field after it has one. *)
Lemma proto_field_is_dropped :
  exists properties,
    fst (typeMapper sampleImports sampleSelf
           [("__proto__", plainField "text"); ("title", plainField "text")] initialState) =
      Ok properties /\
    properties !! "__proto__" = None /\
    properties !! "title" = Some (Annotated (annType (One "string"))).
Proof. eexists. split; [reflexivity|]. split; vm_compute; reflexivity. Qed.

(** X16 on the custom field "accent" of "page", which is marked required. *)
Lemma required_key_without_property_witness :
  customTypeParser (new [page] Sample.bare None) = None /\
  NoDup (map fst (schema page)) /\
  ("accent", customField) ∈ schema page /\
  truthy (required customField) = true /\
  skipped "accent" customField = true /\
  exists properties,
    fst (typeMapper sampleImports (new [page] Sample.bare None) (schema page) initialState) =
      Ok properties /\
    "accent" ∈ obj_required
                 (componentObject sampleImports (new [page] Sample.bare None) page properties) /\
    obj_properties
      (componentObject sampleImports (new [page] Sample.bare None) page properties) !! "accent"
      = None.
Proof.
  assert (("accent", customField) ∈ schema page) as Hin
    by (apply elem_of_cons; right; apply elem_of_cons; right; apply elem_of_cons; by left).
  split; [reflexivity|]. split; [exact page_keys_differ|]. split; [exact Hin|].
  do 2 (split; [reflexivity|]).
  refine (required_key_without_property sampleImports (new [page] Sample.bare None) page
            initialState "accent" customField eq_refl page_keys_differ Hin eq_refl eq_refl _ _);
    discriminate.
Defined.

(** X17 on an "asset" field, in the initial state. *)
Lemma shared_field_annotation_witness :
  String.prefix "tab-" "image" = false /\
  "image" <> "__proto__" /\
  includes (autogeneratedPropertyTypes sampleImports) (type_ (plainField "asset")) = true /\
  exists st',
    typeMapperEntry sampleImports sampleSelf ∅ ("image", plainField "asset") initialState =
      (Ok (<["image" :=
               Annotated {| a_type := Some (One "asset"); a_enum := None; a_items := None;
                            a_tsType := Some "Asset" |}]> ∅), st').
Proof.
  split; [reflexivity|]. split; [discriminate|]. split; [reflexivity|].
  destruct (shared_field_annotation sampleImports sampleSelf ∅ "image" (plainField "asset")
              initialState eq_refl ltac:(discriminate) eq_refl) as (st' & Hstep & _);
    [discriminate|].
  exists st'. exact Hstep.
Defined.

(** X19 with a path whose module cannot be loaded. *)
Lemma init_without_usable_parser_witness :
  (exists e, missingModule (default "" (Some "./parser.js")) = Throw e) /\
  customTypeParser (init missingModule (Some "./parser.js") [teaser; banner] Sample.bare) = None /\
  fst (generateTSFile sampleImports
         (init missingModule (Some "./parser.js") [teaser; banner] Sample.bare) initialState) =
    fst (writeTypeDefs sampleImports
           (init missingModule (Some "./parser.js") [teaser; banner] Sample.bare)
           (snd (generateTSFile sampleImports
                   (init missingModule (Some "./parser.js") [teaser; banner] Sample.bare)
                   initialState))).
Proof.
  assert (exists e, missingModule (default "" (Some "./parser.js")) = Throw e) as Hthrows
    by (eexists; reflexivity).
  split; [exact Hthrows|].
  exact (init_without_usable_parser sampleImports missingModule (Some "./parser.js")
           [teaser; banner] Sample.bare (or_intror (or_introl Hthrows))).
Defined.

(** X20 on an "option" field with the options "a" and "b". *)
Lemma option_enum_values_witness :
  type_ (choiceField "option" None None) = "option" /\
  filter_content_type (choiceField "option" None None) = None /\
  a_enum (parseBlokSchemaProperty sampleImports sampleSelf (choiceField "option" None None)) =
    Some [""; "a"; "b"] /\
  a_type (parseBlokSchemaProperty sampleImports sampleSelf (choiceField "option" None None)) =
    Some (One "string").
Proof.
  do 2 (split; [reflexivity|]).
  destruct (option_enum_values sampleImports sampleSelf (choiceField "option" None None)
              eq_refl (or_intror eq_refl)) as (Hsome & _).
  destruct (Hsome _ eq_refl) as (Henum & Hstring & _).
  split; [exact Henum|exact (Hstring eq_refl)].
Defined.

(** X21 on an "options" field with the options "a" and "b", the empty value
    excluded. *)
Lemma options_items_witness :
  type_ (choiceField "options" None (Some true)) = "options" /\
  filter_content_type (choiceField "options" None (Some true)) = None /\
  a_type (parseBlokSchemaProperty sampleImports sampleSelf
            (choiceField "options" None (Some true))) = Some (One "array") /\
  a_items (parseBlokSchemaProperty sampleImports sampleSelf
             (choiceField "options" None (Some true))) =
    Some {| items_type := None; items_enum := Some ["a"; "b"] |}.
Proof.
  do 2 (split; [reflexivity|]).
  destruct (options_items sampleImports sampleSelf (choiceField "options" None (Some true))
              eq_refl (or_intror eq_refl)) as (Harray & _ & _ & Hitems & _).
  split; [exact Harray|exact (Hitems _ eq_refl)].
Defined.

(** X22 on a "number" field that carries options and an internal source:
    both are ignored. *)
Lemma plain_kinds_depend_on_kind_alone_witness :
  type_ (choiceField "number" (Some "internal") None) <> "option" /\
  type_ (choiceField "number" (Some "internal") None) <> "options" /\
  filter_content_type (choiceField "number" (Some "internal") None) = None /\
  parseBlokSchemaProperty sampleImports sampleSelf (choiceField "number" (Some "internal") None) =
    annType (One "string").
Proof.
  assert (type_ (choiceField "number" (Some "internal") None) <> "option") as Hopt
    by discriminate.
  assert (type_ (choiceField "number" (Some "internal") None) <> "options") as Hopts
    by discriminate.
  split; [exact Hopt|]. split; [exact Hopts|]. split; [reflexivity|].
  destruct (plain_kinds_depend_on_kind_alone sampleImports sampleSelf
              (choiceField "number" (Some "internal") None) Hopt Hopts (or_intror eq_refl))
    as (_ & Hsix & _).
  exact (Hsix eq_refl).
Defined.
